(** * statefulmodal: the Database / identity core of [app.py]

    A shallow embedding of the [Database] class (SQLite store with the tables
    [users], [allowed_emails] and [notes]), of the OAuth handler
    [AppAuth.get_auth], of the session guards [require_auth] and
    [require_admin], of the routes that answer without rendering a page
    ([remove_email], [delete_note], [stats]) and of the command line
    functions [init_admin], [list_users] and [make_admin], followed by the
    properties of the access-control and note-repository flow.  The routes
    that build HTML pages are not embedded.

    Conventions of the embedding.
    - Text is [string]; a character is one of the code points U+0000..U+00FF.
      On this alphabet both case conversions the program uses are defined
      exactly: SQLite's [LOWER()] folds the 26 ASCII capitals only, Python's
      [str.lower] also folds the Latin-1 capitals U+00C0..U+00DE (without
      U+00D7).
    - SQL INTEGER values (row ids, the [is_admin] column) are [Z]; the
      64-bit range of SQLite integers is not modelled.
    - A table is the list of its rows in rowid order (the order of a full
      scan) together with its [sqlite_sequence] counter (AUTOINCREMENT).
    - The clock is an input: [CURRENT_TIMESTAMP] is what SQLite reads (a
      text [YYYY-MM-DD HH:MM:SS], kept and compared as TEXT),
      [datetime_now_isoformat k] the k-th reading of
      [datetime.now().isoformat()] inside one method call.
    - The Modal volume hook called after each commit is an outside
      collaborator that does not touch the rows; it is left out. *)

From Stdlib Require Import ZArith List String Ascii Bool Lia Permutation Sorted.
From Stdlib Require Import OrderedTypeEx DecimalString.
From stdpp Require Import gmap strings.
Import ListNotations.
Open Scope Z_scope.

(** ** Text *)

Module Text.

Definition is_ascii_upper (c : ascii) : bool :=
  ((65 <=? N_of_ascii c) && (N_of_ascii c <=? 90))%N.

Definition is_latin1_upper (c : ascii) : bool :=
  ((192 <=? N_of_ascii c) && (N_of_ascii c <=? 222)
   && negb (N_of_ascii c =? 215))%N.

Definition to_small (c : ascii) : ascii := ascii_of_N (N_of_ascii c + 32).

(** SQLite's built-in [LOWER()] on one character: ASCII only. *)
Definition LOWER_char (c : ascii) : ascii :=
  if is_ascii_upper c then to_small c else c.

(** Python's [str.lower] on one character of the Latin-1 range. *)
Definition lower_char (c : ascii) : ascii :=
  if is_ascii_upper c || is_latin1_upper c then to_small c else c.

Fixpoint map_chars (f : ascii -> ascii) (s : string) : string :=
  match s with
  | EmptyString => EmptyString
  | String c s' => String (f c) (map_chars f s')
  end.

(** SQL [LOWER(x)]. *)
Definition LOWER (s : string) : string := map_chars LOWER_char s.

(** Python [s.lower()]. *)
Definition lower (s : string) : string := map_chars lower_char s.

(** Python [s.split(sep)[0]] for a one-character separator: the text before
    the first occurrence of [sep], the whole text when there is none. *)
Fixpoint split_first (sep : ascii) (s : string) : string :=
  match s with
  | EmptyString => EmptyString
  | String c s' => if Ascii.eqb c sep then EmptyString
                   else String c (split_first sep s')
  end.


(** SQL [a < b] on TEXT values under the BINARY collation. *)
Definition text_lt (a b : string) : bool := String.ltb a b.

End Text.
Export Text.

(** ** Rows, tables and the database file *)

(** [users(id, email, name, is_admin, created_at, last_login)] *)
Record users_row := mk_users_row {
  users_id : Z;
  users_email : string;
  users_name : string;
  users_is_admin : Z;
  users_created_at : string;
  users_last_login : option string   (* NULL is [None] *)
}.

(** [allowed_emails(id, email, added_by, added_at)] *)
Record allowed_emails_row := mk_allowed_emails_row {
  allowed_id : Z;
  allowed_email : string;
  allowed_added_by : string;
  allowed_added_at : string
}.

(** [notes(id, user_id, content, created_at)] *)
Record notes_row := mk_notes_row {
  notes_id : Z;
  notes_user_id : Z;
  notes_content : string;
  notes_created_at : string
}.

(** A table with [INTEGER PRIMARY KEY AUTOINCREMENT]: its rows in rowid order
    and the largest rowid ever handed out (its [sqlite_sequence] entry). *)
Record table (R : Type) := mk_table {
  rows : list R;
  sqlite_sequence : Z
}.
Arguments mk_table {R} _ _.
Arguments rows {R} _.
Arguments sqlite_sequence {R} _.

Record database := mk_database {
  users : table users_row;
  allowed_emails : table allowed_emails_row;
  notes : table notes_row
}.

Definition set_users (t : table users_row) (db : database) : database :=
  mk_database t (allowed_emails db) (notes db).
Definition set_allowed_emails (t : table allowed_emails_row) (db : database)
  : database :=
  mk_database (users db) t (notes db).
Definition set_notes (t : table notes_row) (db : database) : database :=
  mk_database (users db) (allowed_emails db) t.

(** The rowid AUTOINCREMENT picks: one more than the largest rowid the table
    has ever held. *)
Definition max_rowid {R} (id_of : R -> Z) (l : list R) : Z :=
  fold_right (fun r m => Z.max (id_of r) m) 0 l.

Definition next_rowid {R} (id_of : R -> Z) (t : table R) : Z :=
  Z.max (sqlite_sequence t) (max_rowid id_of (rows t)) + 1.

(** The clock readings one method call may take. *)
Record clock := mk_clock {
  CURRENT_TIMESTAMP : string;
  datetime_now_isoformat : nat -> string
}.

(** ** Connections, commit and rollback *)

Inductive exn :=
| IntegrityError (msg : string).

Inductive result (A : Type) :=
| Ok (a : A)
| Raise (e : exn).
Arguments Ok {A} _.
Arguments Raise {A} _.

(** Statements executed on an open connection: they see and change the
    uncommitted database, or raise. *)
Definition conn (A : Type) : Type := database -> result (A * database).

Definition ret {A} (a : A) : conn A := fun db => Ok (a, db).

Definition bind {A B} (m : conn A) (k : A -> conn B) : conn B :=
  fun db => match m db with
            | Ok (a, db') => k a db'
            | Raise e => Raise e
            end.

Notation "x <- m ;; k" := (bind m (fun x => k))
  (at level 100, m at next level, right associativity).

(** [with self._get_connection() as conn: body]: the body runs on a new
    connection; on normal exit (a [return] inside the block included) the
    transaction is committed, on an exception the connection is closed
    without commit and the file keeps its old contents. *)
Definition _get_connection {A} (body : conn A) (db : database)
  : result A * database :=
  match body db with
  | Ok (a, db') => (Ok a, db')
  | Raise e => (Raise e, db)
  end.

(** A method of [Database]: from the file before the call to the outcome
    and the file after it. *)
Definition method (A : Type) : Type := database -> result A * database.

Definition pure {A} (a : A) : method A := fun db => (Ok a, db).

Definition and_then {A B} (m : method A) (k : A -> method B) : method B :=
  fun db => match m db with
            | (Ok a, db') => k a db'
            | (Raise e, db') => (Raise e, db')
            end.

(** The file after a call, and the value the call returned. *)
Definition file_after {A} (out : result A * database) : database := snd out.
Definition outcome {A} (out : result A * database) : result A := fst out.

(** ** The SQL statements *)

Module SQL.

(** [cursor.fetchone()]: the first row of the result, if any. *)
Definition fetchone {R} (l : list R) : option R := hd_error l.

(** [ORDER BY key DESC] as SQLite's sorter does it: rows with a larger key
    first, rows with equal keys in the order the scan delivered them. *)
Fixpoint insert_desc {R} (key : R -> string) (x : R) (l : list R) : list R :=
  match l with
  | [] => [x]
  | y :: l' => if text_lt (key x) (key y) then y :: insert_desc key x l'
               else x :: y :: l'
  end.

Definition order_by_desc {R} (key : R -> string) (l : list R) : list R :=
  fold_right (insert_desc key) [] l.

(** [a] may stand before [b] in a result ordered by [key] descending. *)
Definition not_below {R} (key : R -> string) (a b : R) : Prop :=
  text_lt (key a) (key b) = false.

(** [SELECT 1 FROM allowed_emails WHERE LOWER(email) = LOWER(?)] *)
Definition select_allowed_where_email (q : string)
  : conn (list allowed_emails_row) :=
  fun db =>
    Ok (List.filter (fun r => String.eqb (LOWER (allowed_email r)) (LOWER q))
          (rows (allowed_emails db)), db).

(** [INSERT OR IGNORE INTO allowed_emails (email, added_by) VALUES (?, ?)].
    [added_at] takes its default, CURRENT_TIMESTAMP.  A value that is already
    in the UNIQUE column [email] makes the statement skip the row; the rowid
    was drawn before that check, so [sqlite_sequence] moves on either way. *)
Definition insert_or_ignore_allowed (clk : clock) (email added_by : string)
  : conn unit :=
  fun db =>
    let t := allowed_emails db in
    let rid := next_rowid allowed_id t in
    if existsb (fun r => String.eqb (allowed_email r) email) (rows t)
    then Ok (tt, set_allowed_emails (mk_table (rows t) rid) db)
    else Ok (tt, set_allowed_emails
                   (mk_table
                      (rows t ++ [mk_allowed_emails_row rid email added_by
                                    (CURRENT_TIMESTAMP clk)])
                      rid) db).

(** [DELETE FROM allowed_emails WHERE LOWER(email) = LOWER(?)] *)
Definition delete_allowed_where_email (q : string) : conn unit :=
  fun db =>
    let t := allowed_emails db in
    Ok (tt, set_allowed_emails
              (mk_table
                 (List.filter
                    (fun r => negb (String.eqb (LOWER (allowed_email r))
                                      (LOWER q)))
                    (rows t))
                 (sqlite_sequence t)) db).

(** [SELECT * FROM users WHERE LOWER(email) = LOWER(?)] *)
Definition select_users_where_email (q : string) : conn (list users_row) :=
  fun db =>
    Ok (List.filter (fun r => String.eqb (LOWER (users_email r)) (LOWER q))
          (rows (users db)), db).

(** [SELECT * FROM users ORDER BY created_at DESC] *)
Definition select_users_ordered : conn (list users_row) :=
  fun db => Ok (order_by_desc users_created_at (rows (users db)), db).

Definition with_last_login (v : option string) (r : users_row) : users_row :=
  mk_users_row (users_id r) (users_email r) (users_name r) (users_is_admin r)
    (users_created_at r) v.

Definition with_is_admin (v : Z) (r : users_row) : users_row :=
  mk_users_row (users_id r) (users_email r) (users_name r) v
    (users_created_at r) (users_last_login r).

(** [UPDATE users SET last_login = CURRENT_TIMESTAMP WHERE id = ?] *)
Definition update_users_last_login (clk : clock) (id : Z) : conn unit :=
  fun db =>
    let t := users db in
    Ok (tt, set_users
              (mk_table
                 (map (fun r => if users_id r =? id
                                then with_last_login
                                       (Some (CURRENT_TIMESTAMP clk)) r
                                else r) (rows t))
                 (sqlite_sequence t)) db).

(** [UPDATE users SET is_admin = ? WHERE LOWER(email) = LOWER(?)] *)
Definition update_users_is_admin (v : Z) (q : string) : conn unit :=
  fun db =>
    let t := users db in
    Ok (tt, set_users
              (mk_table
                 (map (fun r => if String.eqb (LOWER (users_email r)) (LOWER q)
                                then with_is_admin v r else r) (rows t))
                 (sqlite_sequence t)) db).

(** [INSERT INTO users (email, name) VALUES (?, ?)]; the value is
    [cursor.lastrowid].  [is_admin] takes its default FALSE, [created_at] its
    default CURRENT_TIMESTAMP, and [last_login], which has no default, is
    NULL.  A duplicate in the UNIQUE column [email] aborts the statement. *)
Definition insert_users (clk : clock) (email name : string) : conn Z :=
  fun db =>
    let t := users db in
    if existsb (fun r => String.eqb (users_email r) email) (rows t)
    then Raise (IntegrityError "UNIQUE constraint failed: users.email")
    else
      let rid := next_rowid users_id t in
      Ok (rid, set_users
                 (mk_table
                    (rows t ++ [mk_users_row rid email name 0
                                  (CURRENT_TIMESTAMP clk) None])
                    rid) db).

(** [INSERT INTO notes (user_id, content) VALUES (?, ?)]; the value is
    [cursor.lastrowid].  No connection ever turns [PRAGMA foreign_keys] on,
    so the [REFERENCES users(id)] clause is not checked. *)
Definition insert_notes (clk : clock) (user_id : Z) (content : string)
  : conn Z :=
  fun db =>
    let t := notes db in
    let rid := next_rowid notes_id t in
    Ok (rid, set_notes
               (mk_table
                  (rows t ++ [mk_notes_row rid user_id content
                                (CURRENT_TIMESTAMP clk)])
                  rid) db).

(** [SELECT * FROM notes WHERE user_id = ? ORDER BY created_at DESC] *)
Definition select_notes_where_user (user_id : Z) : conn (list notes_row) :=
  fun db =>
    Ok (order_by_desc notes_created_at
          (List.filter (fun r => notes_user_id r =? user_id)
             (rows (notes db))), db).

(** [DELETE FROM notes WHERE id = ? AND user_id = ?]; the value is
    [cursor.rowcount], the number of rows deleted. *)
Definition delete_notes_where (note_id user_id : Z) : conn Z :=
  fun db =>
    let t := notes db in
    let hit r := (notes_id r =? note_id) && (notes_user_id r =? user_id) in
    Ok (Z.of_nat (List.length (List.filter hit (rows t))),
        set_notes
          (mk_table (List.filter (fun r => negb (hit r)) (rows t))
             (sqlite_sequence t))
          db).

End SQL.
Export SQL.

(** ** The [User] dataclass *)

Record User := mk_User {
  User_id : option Z;
  User_email : string;
  User_name : string;
  User_is_admin : bool;
  User_created_at : string;
  User_last_login : option string
}.

(** Python's [bool(x)] on an integer column value. *)
Definition py_bool (z : Z) : bool := negb (z =? 0).

(** The integer SQLite stores for a Python [bool] parameter. *)
Definition sql_of_bool (b : bool) : Z := if b then 1 else 0.

(** [User(id=row["id"], ..., last_login=row["last_login"])] *)
Definition User_of_row (row : users_row) : User :=
  mk_User (Some (users_id row)) (users_email row) (users_name row)
    (py_bool (users_is_admin row)) (users_created_at row)
    (users_last_login row).

(** ** The methods of [Database] *)

(** [_init_db]: CREATE TABLE IF NOT EXISTS for the three tables.  On a new
    file ([None]) this makes them, empty; a file that has them is left as it
    is. *)
Definition _init_db (file : option database) : database :=
  match file with
  | Some db => db
  | None => mk_database (mk_table [] 0) (mk_table [] 0) (mk_table [] 0)
  end.

Definition is_email_allowed (email : string) : method bool :=
  _get_connection
    (result <- select_allowed_where_email email ;;
     ret (match fetchone result with Some _ => true | None => false end)).

Definition add_allowed_email (clk : clock) (email added_by : string)
  : method unit :=
  _get_connection (insert_or_ignore_allowed clk (lower email) added_by).

Definition remove_allowed_email (email : string) : method unit :=
  _get_connection (delete_allowed_where_email email).

Definition get_or_create_user (clk : clock) (email name : string)
  : method (option User) :=
  and_then (is_email_allowed email) (fun allowed =>
    if negb allowed then pure None
    else
      _get_connection
        (found <- select_users_where_email email ;;
         match fetchone found with
         | Some row =>
             _ <- update_users_last_login clk (users_id row) ;;
             ret (Some (mk_User (Some (users_id row)) (users_email row)
                          (users_name row) (py_bool (users_is_admin row))
                          (users_created_at row)
                          (Some (datetime_now_isoformat clk 0%nat))))
         | None =>
             lastrowid <- insert_users clk (lower email) name ;;
             ret (Some (mk_User (Some lastrowid) (lower email) name false
                          (datetime_now_isoformat clk 0%nat)
                          (Some (datetime_now_isoformat clk 1%nat))))
         end)).

Definition get_user_by_email (email : string) : method (option User) :=
  _get_connection
    (found <- select_users_where_email email ;;
     ret (match fetchone found with
          | Some row => Some (User_of_row row)
          | None => None
          end)).

Definition get_all_users : method (list User) :=
  _get_connection
    (found <- select_users_ordered ;;
     ret (map User_of_row found)).

Definition set_admin (email : string) (is_admin : bool) : method unit :=
  _get_connection (update_users_is_admin (sql_of_bool is_admin) email).

Definition add_note (clk : clock) (user_id : Z) (content : string)
  : method Z :=
  _get_connection (insert_notes clk user_id content).

Definition get_notes (user_id : Z) : method (list notes_row) :=
  _get_connection (select_notes_where_user user_id).

Definition delete_note (note_id user_id : Z) : method bool :=
  _get_connection
    (rowcount <- delete_notes_where note_id user_id ;;
     ret (0 <? rowcount)).

(** ** Sessions, the OAuth callback and the guards *)

(** The Python values a session holds. *)
Inductive pyval :=
| PyNone
| PyBool (b : bool)
| PyInt (z : Z)
| PyStr (s : string).

(** Truth value of a Python object, as [if x:] and [not x] take it. *)
Definition truthy (v : pyval) : bool :=
  match v with
  | PyNone => false
  | PyBool b => b
  | PyInt z => negb (z =? 0)
  | PyStr s => negb (String.eqb s "")
  end.

(** The session is a dict from key to value. *)
Abbreviation Session := (gmap string pyval).

(** [session.get(key)] *)
Definition session_get (session : Session) (key : string) : pyval :=
  default PyNone (session !! key).

Record RedirectResponse := mk_RedirectResponse {
  url : string;
  status_code : Z
}.

(** What the identity provider hands to [get_auth]; an attribute that is
    missing or [None] is [None] here. *)
Record UserInfo := mk_UserInfo {
  info_email : option string;
  info_name : option string;
  info_email_verified : option bool
}.

(** Python's [x or y] on optional text: [x] when it is a non-empty string. *)
Definition str_or (x : option string) (y : string) : string :=
  match x with
  | Some s => if String.eqb s "" then y else s
  | None => y
  end.

Definition py_int_opt (z : option Z) : pyval :=
  match z with Some n => PyInt n | None => PyNone end.

(** [AppAuth.get_auth(info, ident, session, state)]: the response and the
    session after the call. *)
Definition get_auth (clk : clock) (info : UserInfo) (session : Session)
  : method (RedirectResponse * Session) :=
  let email := str_or (info_email info) "" in
  let name := str_or (info_name info) (split_first "@" email) in
  if negb (default false (info_email_verified info))
  then pure (mk_RedirectResponse "/error?msg=Email+not+verified" 303, session)
  else
    and_then (get_or_create_user clk email name) (fun user =>
      match user with
      | Some user =>
          pure (mk_RedirectResponse "/" 303,
                <["is_admin" := PyBool (User_is_admin user)]>
                  (<["user_id" := py_int_opt (User_id user)]>
                     (<["user_name" := PyStr (User_name user)]>
                        (<["user_email" := PyStr (User_email user)]>
                           session))))
      | None =>
          pure (mk_RedirectResponse
                  ("/error?msg=Access+denied.+Email+" ++ email
                   ++ "+is+not+authorized.") 303,
                session)
      end).

(** The guards are closures of [create_app], with the store [db] in their
    scope; like every closure there they are embedded in [method], which
    hands them the database file and takes it back. *)
Definition require_auth (session : Session)
  : method (option RedirectResponse) :=
  if negb (truthy (session_get session "user_email"))
  then pure (Some (mk_RedirectResponse "/login" 303))
  else pure None.

Definition require_admin (session : Session)
  : method (option RedirectResponse) :=
  if negb (truthy (session_get session "is_admin"))
  then pure (Some (mk_RedirectResponse "/error?msg=Admin+access+required" 303))
  else pure None.

(** The session [get_auth] leaves behind when it lets [user] in. *)
Definition logged_in (user : User) (session : Session) : Session :=
  <["is_admin" := PyBool (User_is_admin user)]>
    (<["user_id" := py_int_opt (User_id user)]>
       (<["user_name" := PyStr (User_name user)]>
          (<["user_email" := PyStr (User_email user)]> session))).

(** ** The invariant of the database file *)

(** The engine's part: the rows of a table lie in rowid order, no rowid
    twice (PRIMARY KEY), and every rowid has been handed out by the
    AUTOINCREMENT counter. *)
Record wf_table {R} (id_of : R -> Z) (t : table R) : Prop := mk_wf_table {
  wf_rowid_order : StronglySorted Z.lt (map id_of (rows t));
  wf_rowid_drawn : Forall (fun r => id_of r <= sqlite_sequence t) (rows t)
}.

(** With it the two UNIQUE constraints on [email], and the program's part:
    every stored email went through [str.lower]. *)
Record wf_db (db : database) : Prop := mk_wf_db {
  wf_users : wf_table users_id (users db);
  wf_allowed_emails : wf_table allowed_id (allowed_emails db);
  wf_notes : wf_table notes_id (notes db);
  wf_users_unique : List.NoDup (map users_email (rows (users db)));
  wf_allowed_unique :
    List.NoDup (map allowed_email (rows (allowed_emails db)));
  wf_users_lower :
    Forall (fun r => lower (users_email r) = users_email r)
      (rows (users db));
  wf_allowed_lower :
    Forall (fun r => lower (allowed_email r) = allowed_email r)
      (rows (allowed_emails db))
}.

(** The writing calls a client of [Database] can make, and the file they
    leave behind. *)
Inductive call :=
| Call_add_allowed_email (clk : clock) (email added_by : string)
| Call_remove_allowed_email (email : string)
| Call_get_or_create_user (clk : clock) (email name : string)
| Call_set_admin (email : string) (is_admin : bool)
| Call_add_note (clk : clock) (user_id : Z) (content : string)
| Call_delete_note (note_id user_id : Z).

Definition run_call (db : database) (c : call) : database :=
  match c with
  | Call_add_allowed_email clk e b => file_after (add_allowed_email clk e b db)
  | Call_remove_allowed_email e => file_after (remove_allowed_email e db)
  | Call_get_or_create_user clk e n =>
      file_after (get_or_create_user clk e n db)
  | Call_set_admin e b => file_after (set_admin e b db)
  | Call_add_note clk u c => file_after (add_note clk u c db)
  | Call_delete_note n u => file_after (delete_note n u db)
  end.

Definition run_calls (cs : list call) : database :=
  fold_left run_call cs (_init_db None).

(** Is [email] on the allow-list, as the WHERE clause of [is_email_allowed]
    sees it. *)
Definition on_allow_list (email : string) (db : database) : bool :=
  existsb (fun a => String.eqb (LOWER (allowed_email a)) (LOWER email))
    (rows (allowed_emails db)).


(** The [users] row the WHERE clause of [get_or_create_user] and
    [get_user_by_email] selects for [email]. *)
Definition users_row_for (email : string) (db : database)
  : option users_row :=
  find (fun r => String.eqb (LOWER (users_email r)) (LOWER email))
    (rows (users db)).

(** The number of allow-list rows that are a casing variant of [email]. *)
Definition allowed_rows_for (email : string) (db : database) : nat :=
  List.length
    (List.filter
       (fun r => String.eqb (lower (allowed_email r)) (lower email))
       (rows (allowed_emails db))).

(** ** The rest of [Database] *)

(** [Database(db_path, volume)]: opening the store runs [_init_db]. *)
Definition Database (file : option database) : database := _init_db file.

(** [SELECT email FROM allowed_emails].  The statement has no ORDER BY; the
    rows are taken in the stored order, and nothing below depends on it. *)
Definition select_allowed_emails : conn (list allowed_emails_row) :=
  fun db => Ok (rows (allowed_emails db), db).

Definition get_allowed_emails : method (list string) :=
  _get_connection
    (found <- select_allowed_emails ;;
     ret (map allowed_email found)).

(** The calls again, from any file. *)
Definition run_calls_from (db : database) (cs : list call) : database :=
  fold_left run_call cs db.

(** ** The rest of [create_app] *)

(** The text SQLite's [LOWER(?)] sees for a bound parameter: a [str] as it
    is, an [int] (and a [bool], bound as 0 or 1) in decimal.  The program
    itself only ever stores a [str] under [user_email]. *)
Definition sql_text (v : pyval) : string :=
  match v with
  | PyStr s => s
  | PyInt z => DecimalString.NilZero.string_of_int (Z.to_int z)
  | PyBool b => if b then "1" else "0"
  | PyNone => ""
  end.

Definition get_current_user (session : Session) : method (option User) :=
  let email := session_get session "user_email" in
  if truthy email then get_user_by_email (sql_text email) else pure None.


(** Python's [s.replace(old, new)] for a one-character [old]. *)
Fixpoint str_replace (old : ascii) (new : string) (s : string) : string :=
  match s with
  | EmptyString => EmptyString
  | String c s' => if Ascii.eqb c old then new +:+ str_replace old new s'
                   else String c (str_replace old new s')
  end.

(** [f"email-{email.replace('@', '-at-').replace('.', '-dot-')}"], the id of
    the list item of an allowed email on the admin page. *)
Definition email_element_id (email : string) : string :=
  "email-" +:+ str_replace "." "-dot-" (str_replace "@" "-at-" email).

(** Does the character occur in the text. *)
Fixpoint has_char (c : ascii) (s : string) : bool :=
  match s with
  | EmptyString => false
  | String d s' => Ascii.eqb d c || has_char c s'
  end.

(** What a route or a command line function can raise. *)
Inductive py_exn :=
| SqliteError (e : exn)
| AttributeError (msg : string).

Inductive completion (A : Type) :=
| Return (a : A)
| Throw (e : py_exn).
Arguments Return {A} _.
Arguments Throw {A} _.

(** A route: a closure of [create_app] over the store. *)
Definition handler (A : Type) : Type := database -> completion A * database.

Definition lift {A} (m : method A) : handler A :=
  fun db => match m db with
            | (Ok a, db') => (Return a, db')
            | (Raise e, db') => (Throw (SqliteError e), db')
            end.

Definition respond {A} (a : A) : handler A := fun db => (Return a, db).

Definition throw {A} (e : py_exn) : handler A := fun db => (Throw e, db).

Definition then_ {A B} (m : handler A) (k : A -> handler B) : handler B :=
  fun db => match m db with
            | (Return a, db') => k a db'
            | (Throw e, db') => (Throw e, db')
            end.

(** What the routes below answer with: a redirect, a text body, or a dict
    rendered as JSON, with the status code when the route gives one. *)
Inductive response :=
| Redirect (r : RedirectResponse)
| Body (s : string)
| Json (d : gmap string pyval) (status : option Z).

Module Routes.

(** [@rt("/admin/emails/{email:path}") def remove_email(session, email)] *)
Definition remove_email (session : Session) (email : string)
  : handler response :=
  then_ (lift (require_auth session)) (fun redirect =>
    match redirect with
    | Some redirect => respond (Redirect redirect)
    | None =>
        then_ (lift (require_admin session)) (fun redirect =>
          match redirect with
          | Some redirect => respond (Redirect redirect)
          | None =>
              then_ (lift (remove_allowed_email email)) (fun _ =>
                respond (Body ""))
          end)
    end).

(** [@rt("/notes/{note_id}") def delete_note(session, note_id)].  [user] is
    [None] when no [users] row goes with the session's email, and [user.id]
    then raises; a [user.id] that is [None] would be bound as NULL, which no
    [user_id] equals. *)
Definition delete_note (session : Session) (note_id : Z)
  : handler response :=
  then_ (lift (require_auth session)) (fun redirect =>
    match redirect with
    | Some redirect => respond (Redirect redirect)
    | None =>
        then_ (lift (get_current_user session)) (fun user =>
          match user with
          | None =>
              throw (AttributeError
                       "'NoneType' object has no attribute 'id'")
          | Some user =>
              then_ (match User_id user with
                     | Some user_id => lift (delete_note note_id user_id)
                     | None => respond false
                     end) (fun _ => respond (Body ""))
          end)
    end).

(** [@rt("/api/stats") def stats(session)] *)
Definition stats (session : Session) : handler response :=
  if negb (truthy (session_get session "user_email"))
  then respond (Json {["error" := PyStr "Unauthorized"]} (Some 401))
  else
    then_ (lift get_all_users) (fun all_users =>
      then_ (lift get_allowed_emails) (fun allowed =>
        respond (Json (<["users" := PyInt (Z.of_nat (List.length all_users))]>
                      {["allowed_emails" :=
                          PyInt (Z.of_nat (List.length allowed))]})
                None))).

End Routes.

(** ** The command line functions *)

Module Cli.

(** A command: what it prints, line by line, how it ends, and the file it
    leaves. *)
Definition command : Type :=
  option database -> (list string * result unit) * database.

(** [init_admin(email)] *)
Definition init_admin (clk : clock) (email : string) : command :=
  fun file =>
    let db := Database file in
    match add_allowed_email clk email "cli" db with
    | (Raise e, db) => (([], Raise e), db)
    | (Ok _, db) =>
        ((["Added " +:+ email +:+ " to allowed emails list";
           "This user will be able to log in and access the application.";
           "To make them an admin, they must first log in, then you can";
           "update the database directly or add admin functionality."],
          Ok tt), db)
    end.

Definition newline : string := String (ascii_of_N 10) EmptyString.

(** The two lines [list_users] prints for one user. *)
Definition user_lines (user : User) : list string :=
  let admin_badge := if User_is_admin user then " [ADMIN]" else "" in
  ["  - " +:+ User_name user +:+ " (" +:+ User_email user +:+ ")"
     +:+ admin_badge;
   "    Last login: " +:+ str_or (User_last_login user) "Never"].

(** [list_users()] *)
Definition list_users : command :=
  fun file =>
    let db := Database file in
    let head := [newline +:+ "=== Allowed Emails ==="] in
    match get_allowed_emails db with
    | (Raise e, db) => ((head, Raise e), db)
    | (Ok emails, db) =>
        let head :=
          head ++ map (fun email => "  - " +:+ email) emails
               ++ [newline +:+ "=== Registered Users ==="] in
        match get_all_users db with
        | (Raise e, db) => ((head, Raise e), db)
        | (Ok all_users, db) =>
            ((head ++ flat_map user_lines all_users, Ok tt), db)
        end
    end.

(** [make_admin(email)] *)
Definition make_admin (email : string) : command :=
  fun file =>
    let db := Database file in
    match get_user_by_email email db with
    | (Raise e, db) => (([], Raise e), db)
    | (Ok None, db) =>
        ((["Error: User " +:+ email
           +:+ " not found. They must log in first."], Ok tt), db)
    | (Ok (Some _), db) =>
        match set_admin email true db with
        | (Raise e, db) => (([], Raise e), db)
        | (Ok _, db) =>
            ((["Granted admin privileges to " +:+ email], Ok tt), db)
        end
    end.

End Cli.

(** ** Sample data *)

Module Sample.

Definition at_10h : clock :=
  mk_clock "2024-05-01 10:00:00" (fun k => match k with
                                           | O => "2024-05-01T12:00:00.000100"
                                           | _ => "2024-05-01T12:00:00.000200"
                                           end).
Definition at_10h01 : clock :=
  mk_clock "2024-05-01 10:01:00" (fun _ => "2024-05-01T12:01:00.000100").
Definition at_10h02 : clock :=
  mk_clock "2024-05-01 10:02:00" (fun _ => "2024-05-01T12:02:00.000100").

(** The allow-list holds [foo@bar.com]; nobody has logged in. *)
Definition seeded : database :=
  file_after
    (add_allowed_email at_10h "foo@bar.com" "system" (_init_db None)).

(** [Foo@Bar.com] has logged in once. *)
Definition with_foo : database :=
  file_after (get_or_create_user at_10h "Foo@Bar.com" "Foo" seeded).

End Sample.

(** ** More sample data *)

Module Fixture.

(** [E_acute] starts with U+00C9, [e_acute] with U+00E9. *)
Definition E_acute : string := String (ascii_of_N 201) "@bar.com".
Definition e_acute : string := String (ascii_of_N 233) "@bar.com".

(** A file no method call leaves behind: its allow-list entry was written
    with the capital, by another program. *)
Definition edited_by_hand : database :=
  mk_database
    (mk_table [mk_users_row 1 e_acute "E" 0 "2024-05-01 09:00:00" None] 1)
    (mk_table [mk_allowed_emails_row 1 E_acute "sql" "2024-05-01 09:00:00"]
       1)
    (mk_table [] 0).

(** What the identity provider says about [Foo@Bar.com], without a name. *)
Definition foo_info : UserInfo :=
  mk_UserInfo (Some "Foo@Bar.com") None (Some true).

(** [foo@bar.com] has logged in once and was then made an admin. *)
Definition with_admin_foo : database :=
  file_after (set_admin "foo@bar.com" true Sample.with_foo).

End Fixture.

(** * Properties *)

(** ** Case conversion *)

Section CaseConversion.

Local Ltac by_cases_on c :=
  destruct c as [[] [] [] [] [] [] [] []]; vm_compute; reflexivity.

Lemma LOWER_char_lower_char c : LOWER_char (lower_char c) = lower_char c.
Proof. by_cases_on c. Qed.

Lemma lower_char_lower_char c : lower_char (lower_char c) = lower_char c.
Proof. by_cases_on c. Qed.

Lemma lower_char_LOWER_char c : lower_char (LOWER_char c) = lower_char c.
Proof. by_cases_on c. Qed.

Lemma LOWER_char_LOWER_char c : LOWER_char (LOWER_char c) = LOWER_char c.
Proof. by_cases_on c. Qed.

Lemma map_chars_compose f g h :
  (forall c, f (g c) = h c) ->
  forall s, map_chars f (map_chars g s) = map_chars h s.
Proof.
  intros Hc s. induction s as [|c s IH]; simpl; [reflexivity|].
  now rewrite Hc, IH.
Qed.

(** What Python lower-cases, SQLite's [LOWER] leaves alone. *)
Lemma LOWER_lower s : LOWER (lower s) = lower s.
Proof. apply map_chars_compose, LOWER_char_lower_char. Qed.

Lemma lower_lower s : lower (lower s) = lower s.
Proof. apply map_chars_compose, lower_char_lower_char. Qed.

Lemma lower_LOWER s : lower (LOWER s) = lower s.
Proof. apply map_chars_compose, lower_char_LOWER_char. Qed.

Lemma LOWER_LOWER s : LOWER (LOWER s) = LOWER s.
Proof. apply map_chars_compose, LOWER_char_LOWER_char. Qed.

(** A lower-cased text matches, under [LOWER], exactly the texts whose
    [LOWER] it is; such texts are lower-cased alike by both conversions. *)
Lemma LOWER_eq_lower_fixed a e :
  lower a = a -> LOWER e = LOWER a -> lower e = LOWER e /\ LOWER e = a.
Proof.
  intros Ha He.
  assert (HLa : LOWER a = a) by (rewrite <- Ha; apply LOWER_lower).
  rewrite HLa in He. split; [|exact He].
  rewrite <- (lower_LOWER e), He. exact Ha.
Qed.




End CaseConversion.

(** ** Lists and tables *)

Section ListFacts.

Context {R : Type}.

Lemma fetchone_filter (p : R -> bool) l :
  fetchone (List.filter p l) = find p l.
Proof.
  induction l as [|x l IH]; simpl; [reflexivity|].
  destruct (p x); [reflexivity | exact IH].
Qed.

Lemma find_none_forall (p : R -> bool) l :
  find p l = None <-> (forall x, In x l -> p x = false).
Proof.
  split.
  - intros H x Hx. exact (find_none p l H x Hx).
  - induction l as [|x l IH]; intros H; simpl; [reflexivity|].
    rewrite (H x (or_introl eq_refl)). apply IH.
    intros y Hy. apply H. now right.
Qed.

Lemma filter_keeps_all (p : R -> bool) l :
  (forall x, In x l -> p x = true) -> List.filter p l = l.
Proof.
  induction l as [|x l IH]; intros H; simpl; [reflexivity|].
  rewrite (H x (or_introl eq_refl)). f_equal. apply IH.
  intros y Hy. apply H. now right.
Qed.

Lemma filter_drops_all (p : R -> bool) l :
  (forall x, In x l -> p x = false) -> List.filter p l = [].
Proof.
  induction l as [|x l IH]; intros H; simpl; [reflexivity|].
  rewrite (H x (or_introl eq_refl)). apply IH.
  intros y Hy. apply H. now right.
Qed.

Lemma existsb_false_forall (p : R -> bool) l :
  existsb p l = false <-> (forall x, In x l -> p x = false).
Proof.
  split.
  - intros H x Hx. destruct (p x) eqn:E; [|reflexivity].
    rewrite <- H. symmetry. apply existsb_exists. now exists x.
  - intros H. destruct (existsb p l) eqn:E; [|reflexivity].
    apply existsb_exists in E as (x & Hx & Hp). now rewrite (H x Hx) in Hp.
Qed.

Variable id_of : R -> Z.

Lemma max_rowid_bound l r : In r l -> id_of r <= max_rowid id_of l.
Proof.
  induction l as [|x l IH]; simpl; [tauto|].
  intros [->|H]; [lia|]. specialize (IH H). lia.
Qed.

Lemma next_rowid_above_rows (t : table R) r :
  In r (rows t) -> id_of r < next_rowid id_of t.
Proof.
  intros H. apply max_rowid_bound in H. unfold next_rowid. lia.
Qed.

Lemma next_rowid_above_sequence (t : table R) :
  sqlite_sequence t < next_rowid id_of t.
Proof. unfold next_rowid. lia. Qed.

Lemma StronglySorted_snoc l x :
  StronglySorted Z.lt l -> Forall (fun y => y < x) l ->
  StronglySorted Z.lt (l ++ [x]).
Proof.
  induction 1 as [|y l Hs IH Hy]; intros Hx; simpl.
  - repeat constructor.
  - inversion Hx; subst. constructor; [now apply IH|].
    apply List.Forall_app. split; [exact Hy|]. now repeat constructor.
Qed.

(** Appending a row under a fresh rowid keeps a table well formed. *)
Lemma wf_table_insert (t : table R) (r : R) :
  wf_table id_of t -> id_of r = next_rowid id_of t ->
  wf_table id_of (mk_table (rows t ++ [r]) (id_of r)).
Proof.
  intros [Hs Hd] Hr. split; simpl.
  - rewrite map_app. simpl. apply StronglySorted_snoc; [exact Hs|].
    apply List.Forall_forall. intros y Hy.
    apply in_map_iff in Hy as (x & <- & Hx).
    rewrite Hr. now apply next_rowid_above_rows.
  - apply List.Forall_app. split.
    + apply List.Forall_forall. intros x Hx. rewrite Hr.
      apply next_rowid_above_rows in Hx. lia.
    + repeat constructor. lia.
Qed.

Lemma wf_table_advance (t : table R) :
  wf_table id_of t -> wf_table id_of (mk_table (rows t) (next_rowid id_of t)).
Proof.
  intros [Hs Hd]. split; simpl; [exact Hs|].
  apply List.Forall_forall. intros x Hx.
  apply next_rowid_above_rows in Hx. lia.
Qed.

Lemma StronglySorted_map_filter (p : R -> bool) l :
  StronglySorted Z.lt (map id_of l) ->
  StronglySorted Z.lt (map id_of (List.filter p l)).
Proof.
  induction l as [|x l IH]; simpl; intros H; [constructor|].
  inversion H as [|? ? Hs Hall]; subst. specialize (IH Hs).
  destruct (p x); simpl; [|exact IH].
  constructor; [exact IH|].
  rewrite List.Forall_forall in *. intros y Hy.
  apply in_map_iff in Hy as (z & <- & Hz). apply filter_In in Hz as [Hz _].
  apply Hall. now apply in_map.
Qed.

Lemma wf_table_delete (p : R -> bool) (t : table R) :
  wf_table id_of t ->
  wf_table id_of (mk_table (List.filter p (rows t)) (sqlite_sequence t)).
Proof.
  intros [Hs Hd]. split; simpl.
  - now apply StronglySorted_map_filter.
  - rewrite List.Forall_forall in *. intros x Hx.
    apply filter_In in Hx as [Hx _]. now apply Hd.
Qed.

Lemma wf_table_update (f : R -> R) (t : table R) :
  (forall r, id_of (f r) = id_of r) ->
  wf_table id_of t ->
  wf_table id_of (mk_table (map f (rows t)) (sqlite_sequence t)).
Proof.
  intros Hf [Hs Hd]. split; simpl.
  - rewrite map_map. now rewrite (map_ext _ _ Hf).
  - rewrite List.Forall_forall in *. intros x Hx.
    apply in_map_iff in Hx as (y & <- & Hy). rewrite Hf. now apply Hd.
Qed.

(** The rowid is a key. *)
Lemma wf_table_rowid_key (t : table R) r1 r2 :
  wf_table id_of t -> In r1 (rows t) -> In r2 (rows t) ->
  id_of r1 = id_of r2 -> r1 = r2.
Proof.
  intros [Hs _]. induction (rows t) as [|x l IH]; simpl; [tauto|].
  simpl in Hs. inversion Hs as [|? ? Hs' Hall]; subst.
  rewrite List.Forall_forall in Hall.
  intros [->|H1] [->|H2] E; try reflexivity.
  - specialize (Hall (id_of r2) (in_map _ _ _ H2)). lia.
  - specialize (Hall (id_of r1) (in_map _ _ _ H1)). lia.
  - now apply IH.
Qed.

End ListFacts.

Lemma NoDup_map_filter {R K} (f : R -> K) (p : R -> bool) l :
  List.NoDup (map f l) -> List.NoDup (map f (List.filter p l)).
Proof.
  induction l as [|x l IH]; simpl; intros H; [constructor|].
  inversion H as [|? ? Hn Hd]; subst. specialize (IH Hd).
  destruct (p x); simpl; [|exact IH].
  constructor; [|exact IH].
  intros Hin. apply Hn. apply in_map_iff in Hin as (z & Hz & Hz').
  apply filter_In in Hz' as [Hz' _]. apply in_map_iff. now exists z.
Qed.

Lemma set_users_id db : set_users (users db) db = db.
Proof. now destruct db. Qed.

Lemma set_allowed_emails_id db :
  set_allowed_emails (allowed_emails db) db = db.
Proof. now destruct db. Qed.


Lemma mk_table_eta {R} (t : table R) :
  mk_table (rows t) (sqlite_sequence t) = t.
Proof. now destruct t. Qed.

(** ** The methods in closed form *)

Lemma find_some_existsb {R} (p : R -> bool) l :
  match find p l with Some _ => true | None => false end = existsb p l.
Proof.
  induction l as [|x l IH]; simpl; [reflexivity|].
  destruct (p x); [reflexivity | exact IH].
Qed.

Lemma is_email_allowed_eq email db :
  is_email_allowed email db = (Ok (on_allow_list email db), db).
Proof.
  unfold is_email_allowed, _get_connection, bind, select_allowed_where_email,
    ret, on_allow_list.
  now rewrite fetchone_filter, find_some_existsb.
Qed.

Lemma add_allowed_email_eq clk email added_by db :
  add_allowed_email clk email added_by db =
  (Ok tt,
   let t := allowed_emails db in
   let rid := next_rowid allowed_id t in
   if existsb (fun r => String.eqb (allowed_email r) (lower email)) (rows t)
   then set_allowed_emails (mk_table (rows t) rid) db
   else set_allowed_emails
          (mk_table
             (rows t ++ [mk_allowed_emails_row rid (lower email) added_by
                           (CURRENT_TIMESTAMP clk)]) rid) db).
Proof.
  unfold add_allowed_email, _get_connection, insert_or_ignore_allowed. simpl.
  now destruct (existsb _ _).
Qed.

Lemma remove_allowed_email_eq email db :
  remove_allowed_email email db =
  (Ok tt,
   set_allowed_emails
     (mk_table
        (List.filter
           (fun r => negb (String.eqb (LOWER (allowed_email r)) (LOWER email)))
           (rows (allowed_emails db)))
        (sqlite_sequence (allowed_emails db))) db).
Proof. reflexivity. Qed.

Lemma set_admin_eq email is_admin db :
  set_admin email is_admin db =
  (Ok tt,
   set_users
     (mk_table
        (map (fun r => if String.eqb (LOWER (users_email r)) (LOWER email)
                       then with_is_admin (sql_of_bool is_admin) r else r)
           (rows (users db)))
        (sqlite_sequence (users db))) db).
Proof. reflexivity. Qed.

Lemma add_note_eq clk user_id content db :
  add_note clk user_id content db =
  (Ok (next_rowid notes_id (notes db)),
   set_notes
     (mk_table
        (rows (notes db)
         ++ [mk_notes_row (next_rowid notes_id (notes db)) user_id content
               (CURRENT_TIMESTAMP clk)])
        (next_rowid notes_id (notes db))) db).
Proof. reflexivity. Qed.

Lemma get_notes_eq user_id db :
  get_notes user_id db =
  (Ok (order_by_desc notes_created_at
         (List.filter (fun r => notes_user_id r =? user_id) (rows (notes db)))),
   db).
Proof. reflexivity. Qed.

Lemma delete_note_eq note_id user_id db :
  delete_note note_id user_id db =
  (Ok (existsb
         (fun r => (notes_id r =? note_id) && (notes_user_id r =? user_id))
         (rows (notes db))),
   set_notes
     (mk_table
        (List.filter
           (fun r => negb ((notes_id r =? note_id)
                           && (notes_user_id r =? user_id)))
           (rows (notes db)))
        (sqlite_sequence (notes db))) db).
Proof.
  unfold delete_note, _get_connection, bind, delete_notes_where, ret.
  do 2 f_equal.
  induction (rows (notes db)) as [|x l IH]; simpl; [reflexivity|].
  destruct ((notes_id x =? note_id) && (notes_user_id x =? user_id)); simpl.
  - apply Z.ltb_lt. lia.
  - exact IH.
Qed.

Lemma get_user_by_email_eq email db :
  get_user_by_email email db =
  (Ok (option_map User_of_row (users_row_for email db)), db).
Proof.
  unfold get_user_by_email, _get_connection, bind, select_users_where_email,
    ret, users_row_for.
  rewrite fetchone_filter. now destruct (find _ _).
Qed.

Lemma get_or_create_user_eq clk email name db :
  get_or_create_user clk email name db =
  if negb (on_allow_list email db) then (Ok None, db)
  else
    match users_row_for email db with
    | Some row =>
        (Ok (Some (mk_User (Some (users_id row)) (users_email row)
                     (users_name row) (py_bool (users_is_admin row))
                     (users_created_at row)
                     (Some (datetime_now_isoformat clk 0%nat)))),
         set_users
           (mk_table
              (map (fun r => if users_id r =? users_id row
                             then with_last_login
                                    (Some (CURRENT_TIMESTAMP clk)) r
                             else r) (rows (users db)))
              (sqlite_sequence (users db))) db)
    | None =>
        if existsb (fun r => String.eqb (users_email r) (lower email))
             (rows (users db))
        then (Raise (IntegrityError "UNIQUE constraint failed: users.email"),
              db)
        else
          (Ok (Some (mk_User (Some (next_rowid users_id (users db)))
                       (lower email) name false
                       (datetime_now_isoformat clk 0%nat)
                       (Some (datetime_now_isoformat clk 1%nat)))),
           set_users
             (mk_table
                (rows (users db)
                 ++ [mk_users_row (next_rowid users_id (users db))
                       (lower email) name 0 (CURRENT_TIMESTAMP clk) None])
                (next_rowid users_id (users db))) db)
    end.
Proof.
  unfold get_or_create_user, and_then. rewrite is_email_allowed_eq.
  destruct (on_allow_list email db); simpl; [|reflexivity].
  unfold _get_connection, bind, select_users_where_email, users_row_for.
  rewrite fetchone_filter.
  destruct (find _ _) as [row|]; simpl; [reflexivity|].
  unfold insert_users. now destruct (existsb _ _).
Qed.

(** ** The invariant holds in every file the methods can produce *)

Lemma wf_db_init : wf_db (_init_db None).
Proof. split; simpl; try split; simpl; constructor. Qed.

Lemma wf_db_set_users t db :
  wf_db db -> wf_table users_id t ->
  List.NoDup (map users_email (rows t)) ->
  Forall (fun r => lower (users_email r) = users_email r) (rows t) ->
  wf_db (set_users t db).
Proof. intros [] ? ? ?. now split. Qed.

Lemma wf_db_set_allowed_emails t db :
  wf_db db -> wf_table allowed_id t ->
  List.NoDup (map allowed_email (rows t)) ->
  Forall (fun r => lower (allowed_email r) = allowed_email r) (rows t) ->
  wf_db (set_allowed_emails t db).
Proof. intros [] ? ? ?. now split. Qed.

Lemma wf_db_set_notes t db :
  wf_db db -> wf_table notes_id t -> wf_db (set_notes t db).
Proof. intros [] ?. now split. Qed.

Lemma NoDup_map_snoc {R} (f : R -> string) l x :
  List.NoDup (map f l) ->
  existsb (fun r => String.eqb (f r) (f x)) l = false ->
  List.NoDup (map f (l ++ [x])).
Proof.
  intros Hn He. rewrite map_app. simpl.
  apply (Permutation_NoDup (l := f x :: map f l)).
  - apply Permutation_cons_append.
  - constructor; [|exact Hn]. intros Hin.
    apply in_map_iff in Hin as (r & Hr & Hin).
    rewrite existsb_false_forall in He. specialize (He r Hin).
    apply String.eqb_neq in He. contradiction.
Qed.

Lemma map_update_same {R K} (f : R -> R) (k : R -> K) l :
  (forall r, k (f r) = k r) -> map k (map f l) = map k l.
Proof. intros H. rewrite map_map. now apply map_ext. Qed.

Lemma wf_db_add_allowed_email clk email added_by db :
  wf_db db -> wf_db (file_after (add_allowed_email clk email added_by db)).
Proof.
  intros Hwf. rewrite add_allowed_email_eq. unfold file_after. simpl.
  destruct (existsb _ _) eqn:E.
  - apply wf_db_set_allowed_emails; simpl.
    + exact Hwf.
    + apply wf_table_advance, (wf_allowed_emails _ Hwf).
    + exact (wf_allowed_unique _ Hwf).
    + exact (wf_allowed_lower _ Hwf).
  - apply wf_db_set_allowed_emails; simpl.
    + exact Hwf.
    + apply (wf_table_insert allowed_id (allowed_emails db)
               (mk_allowed_emails_row _ _ _ _));
        [exact (wf_allowed_emails _ Hwf) | reflexivity].
    + apply NoDup_map_snoc; [exact (wf_allowed_unique _ Hwf) | exact E].
    + apply List.Forall_app. split; [exact (wf_allowed_lower _ Hwf)|].
      constructor; [|constructor]. simpl. apply lower_lower.
Qed.

Lemma wf_db_remove_allowed_email email db :
  wf_db db -> wf_db (file_after (remove_allowed_email email db)).
Proof.
  intros Hwf. rewrite remove_allowed_email_eq. unfold file_after. simpl.
  apply wf_db_set_allowed_emails; simpl.
  - exact Hwf.
  - apply wf_table_delete, (wf_allowed_emails _ Hwf).
  - apply NoDup_map_filter, (wf_allowed_unique _ Hwf).
  - apply List.Forall_forall. intros r Hr. apply filter_In in Hr as [Hr _].
    revert r Hr. apply List.Forall_forall, (wf_allowed_lower _ Hwf).
Qed.

Lemma wf_db_update_users (f : users_row -> users_row) db :
  (forall r, users_id (f r) = users_id r) ->
  (forall r, users_email (f r) = users_email r) ->
  wf_db db ->
  wf_db (set_users
           (mk_table (map f (rows (users db))) (sqlite_sequence (users db)))
           db).
Proof.
  intros Hid Hem Hwf. apply wf_db_set_users; simpl.
  - exact Hwf.
  - apply wf_table_update; [exact Hid | exact (wf_users _ Hwf)].
  - rewrite (map_update_same f users_email _ Hem).
    exact (wf_users_unique _ Hwf).
  - apply List.Forall_map.
    eapply List.Forall_impl; [|exact (wf_users_lower _ Hwf)].
    intros r Hr. simpl in Hr. rewrite Hem. exact Hr.
Qed.

Lemma wf_db_set_admin email is_admin db :
  wf_db db -> wf_db (file_after (set_admin email is_admin db)).
Proof.
  intros Hwf. rewrite set_admin_eq. unfold file_after. simpl.
  apply wf_db_update_users; [| |exact Hwf]; intros r;
    now destruct (String.eqb _ _).
Qed.

Lemma wf_db_get_or_create_user clk email name db :
  wf_db db -> wf_db (file_after (get_or_create_user clk email name db)).
Proof.
  intros Hwf. rewrite get_or_create_user_eq. unfold file_after.
  destruct (negb _); [exact Hwf|].
  destruct (users_row_for email db) as [row|].
  - simpl. apply wf_db_update_users; [| |exact Hwf]; intros r;
      now destruct (users_id r =? users_id row).
  - destruct (existsb _ _) eqn:E; [exact Hwf|]. simpl.
    apply wf_db_set_users; simpl.
    + exact Hwf.
    + apply (wf_table_insert users_id (users db) (mk_users_row _ _ _ _ _ _));
        [exact (wf_users _ Hwf) | reflexivity].
    + apply NoDup_map_snoc; [exact (wf_users_unique _ Hwf) | exact E].
    + apply List.Forall_app. split; [exact (wf_users_lower _ Hwf)|].
      constructor; [|constructor]. simpl. apply lower_lower.
Qed.

Lemma wf_db_add_note clk user_id content db :
  wf_db db -> wf_db (file_after (add_note clk user_id content db)).
Proof.
  intros Hwf. rewrite add_note_eq. unfold file_after. simpl.
  apply wf_db_set_notes; [exact Hwf|].
  apply (wf_table_insert notes_id (notes db) (mk_notes_row _ _ _ _));
    [exact (wf_notes _ Hwf) | reflexivity].
Qed.

Lemma wf_db_delete_note note_id user_id db :
  wf_db db -> wf_db (file_after (delete_note note_id user_id db)).
Proof.
  intros Hwf. rewrite delete_note_eq. unfold file_after. simpl.
  apply wf_db_set_notes; [exact Hwf|].
  apply wf_table_delete, (wf_notes _ Hwf).
Qed.

Lemma wf_db_run_call db c : wf_db db -> wf_db (run_call db c).
Proof.
  destruct c; simpl.
  - apply wf_db_add_allowed_email.
  - apply wf_db_remove_allowed_email.
  - apply wf_db_get_or_create_user.
  - apply wf_db_set_admin.
  - apply wf_db_add_note.
  - apply wf_db_delete_note.
Qed.

(** Every file reached from a new one through the methods is well formed. *)
Lemma wf_db_run_calls cs : wf_db (run_calls cs).
Proof.
  unfold run_calls. generalize wf_db_init. generalize (_init_db None).
  induction cs as [|c cs IH]; intros db Hwf; simpl; [exact Hwf|].
  apply IH, wf_db_run_call, Hwf.
Qed.

(** ** What the invariant gives the login path *)

Lemma NoDup_map_key {R K} (f : R -> K) l x y :
  List.NoDup (map f l) -> In x l -> In y l -> f x = f y -> x = y.
Proof.
  induction l as [|z l IH]; simpl; [tauto|].
  intros Hn. inversion Hn as [|? ? Hz Hl]; subst.
  intros [->|Hx] [->|Hy] E; try reflexivity.
  - exfalso. apply Hz. rewrite E. now apply in_map.
  - exfalso. apply Hz. rewrite <- E. now apply in_map.
  - now apply IH.
Qed.

Lemma on_allow_list_true email db :
  on_allow_list email db = true <->
  exists a, In a (rows (allowed_emails db))
            /\ LOWER (allowed_email a) = LOWER email.
Proof.
  unfold on_allow_list. rewrite existsb_exists.
  split; intros (a & Ha & E); exists a; split; try exact Ha;
    now apply String.eqb_eq.
Qed.

Lemma on_allow_list_false email db :
  on_allow_list email db = false <->
  forall a, In a (rows (allowed_emails db))
            -> LOWER (allowed_email a) <> LOWER email.
Proof.
  unfold on_allow_list. rewrite existsb_false_forall.
  split; intros H a Ha; specialize (H a Ha); now apply String.eqb_neq.
Qed.

Lemma users_row_for_some email db row :
  users_row_for email db = Some row ->
  In row (rows (users db)) /\ LOWER (users_email row) = LOWER email.
Proof.
  intros H. apply find_some in H as [Hin E]. split; [exact Hin|].
  now apply String.eqb_eq.
Qed.

(** An email on a well-formed allow-list holds no capital that only Python
    would fold. *)
Lemma allowed_email_lower db email :
  wf_db db -> on_allow_list email db = true -> lower email = LOWER email.
Proof.
  intros Hwf H. apply on_allow_list_true in H as (a & Ha & E).
  pose proof (wf_allowed_lower _ Hwf) as Hl.
  rewrite List.Forall_forall in Hl. specialize (Hl a Ha).
  symmetry in E. exact (proj1 (LOWER_eq_lower_fixed _ _ Hl E)).
Qed.

Lemma stored_email_is_lower db email row :
  wf_db db -> In row (rows (users db)) ->
  LOWER (users_email row) = LOWER email ->
  users_email row = lower email.
Proof.
  intros Hwf Hin E.
  pose proof (wf_users_lower _ Hwf) as Hl.
  rewrite List.Forall_forall in Hl. specialize (Hl row Hin).
  symmetry in E. destruct (LOWER_eq_lower_fixed _ _ Hl E) as [H1 H2].
  now rewrite H1, H2.
Qed.

(** The row the login path selects is the only one for that email. *)
Lemma users_row_for_unique db email row :
  wf_db db -> In row (rows (users db)) ->
  LOWER (users_email row) = LOWER email ->
  users_row_for email db = Some row.
Proof.
  intros Hwf Hin E. unfold users_row_for.
  destruct (find _ _) as [row'|] eqn:F.
  - apply find_some in F as [Hin' E']. apply String.eqb_eq in E'.
    f_equal. apply (NoDup_map_key users_email (rows (users db)));
      [exact (wf_users_unique _ Hwf) | exact Hin' | exact Hin |].
    rewrite (stored_email_is_lower db email row' Hwf Hin' E').
    now rewrite (stored_email_is_lower db email row Hwf Hin E).
  - rewrite find_none_forall in F. specialize (F row Hin).
    apply String.eqb_neq in F. contradiction.
Qed.

(** The INSERT of the login path never meets the UNIQUE constraint. *)
Lemma insert_users_no_conflict db email :
  wf_db db -> on_allow_list email db = true ->
  users_row_for email db = None ->
  existsb (fun r => String.eqb (users_email r) (lower email))
    (rows (users db)) = false.
Proof.
  intros Hwf Ha Hn. apply existsb_false_forall. intros r Hr.
  apply String.eqb_neq. intros E.
  unfold users_row_for in Hn. rewrite find_none_forall in Hn.
  specialize (Hn r Hr). apply String.eqb_neq in Hn. apply Hn.
  rewrite E, LOWER_lower. now apply (allowed_email_lower db).
Qed.

(** ** Allow-list gating *)

Lemma get_or_create_user_off_list clk email name db :
  on_allow_list email db = false ->
  get_or_create_user clk email name db = (Ok None, db).
Proof. intros H. now rewrite get_or_create_user_eq, H. Qed.

(** C1. An email that no row of [allowed_emails] matches, case ignored, is
    denied: [get_or_create_user] returns [None] and leaves the file, and so
    every row of [users], as it was.  [get_auth] for such an email answers
    with a redirect to the error page and leaves file and session alone. *)
Theorem get_or_create_user_denied clk email name db :
  on_allow_list email db = false ->
  get_or_create_user clk email name db = (Ok None, db)
  /\ users (file_after (get_or_create_user clk email name db)) = users db
  /\ forall info session,
       str_or (info_email info) "" = email ->
       exists resp,
         get_auth clk info session db = (Ok (resp, session), db)
         /\ url resp <> "/".
Proof.
  intros H. rewrite (get_or_create_user_off_list clk email name db H).
  split; [reflexivity|]. split; [reflexivity|].
  intros info session E. unfold get_auth, and_then. rewrite E.
  destruct (negb _).
  - eexists. split; [reflexivity|]. discriminate.
  - rewrite (get_or_create_user_off_list clk email _ db H).
    eexists. split; [reflexivity|]. discriminate.
Qed.

Lemma get_or_create_user_denied_witness :
  on_allow_list "eve@bar.com" Sample.seeded = false
  /\ get_or_create_user Sample.at_10h "eve@bar.com" "Eve" Sample.seeded
     = (Ok None, Sample.seeded).
Proof.
  split; [reflexivity|].
  apply (get_or_create_user_denied Sample.at_10h "eve@bar.com" "Eve"
           Sample.seeded).
  reflexivity.
Defined.

(** C7. Taking an email off the allow-list leaves the [users] table exactly
    as it was, whatever rows it holds, and from then on a login with that
    email, in any casing, is denied. *)
Theorem revocation_not_retroactive clk email email' name db :
  LOWER email' = LOWER email ->
  let db' := file_after (remove_allowed_email email db) in
  outcome (remove_allowed_email email db) = Ok tt
  /\ users db' = users db
  /\ notes db' = notes db
  /\ get_or_create_user clk email' name db' = (Ok None, db').
Proof.
  intros E db'. subst db'. rewrite remove_allowed_email_eq.
  unfold file_after, outcome. simpl.
  repeat split.
  apply get_or_create_user_off_list. apply on_allow_list_false. simpl.
  intros a Ha. apply filter_In in Ha as [_ Ha].
  apply negb_true_iff, String.eqb_neq in Ha. now rewrite E.
Qed.

Lemma revocation_not_retroactive_witness :
  LOWER "Foo@Bar.com" = LOWER "FOO@bar.com"
  /\ let db' := file_after (remove_allowed_email "FOO@bar.com"
                              Sample.with_foo) in
     outcome (remove_allowed_email "FOO@bar.com" Sample.with_foo) = Ok tt
     /\ users db' = users Sample.with_foo
     /\ notes db' = notes Sample.with_foo
     /\ get_or_create_user Sample.at_10h01 "Foo@Bar.com" "Foo" db'
        = (Ok None, db').
Proof.
  split; [reflexivity|].
  apply (revocation_not_retroactive Sample.at_10h01 "FOO@bar.com"
           "Foo@Bar.com" "Foo" Sample.with_foo).
  reflexivity.
Defined.

(** ** The note repository *)





(** ** Logging in *)

Lemma wf_db_seeded : wf_db Sample.seeded.
Proof.
  exact (wf_db_run_calls
           [Call_add_allowed_email Sample.at_10h "foo@bar.com" "system"]).
Qed.

Lemma wf_db_with_foo : wf_db Sample.with_foo.
Proof.
  exact (wf_db_run_calls
           [Call_add_allowed_email Sample.at_10h "foo@bar.com" "system";
            Call_get_or_create_user Sample.at_10h "Foo@Bar.com" "Foo"]).
Qed.

Lemma find_app_none {R} (p : R -> bool) l x :
  find p l = None -> find p (l ++ [x]) = if p x then Some x else None.
Proof.
  induction l as [|y l IH]; simpl; [reflexivity|].
  destruct (p y); [discriminate | exact IH].
Qed.

(** C9. A login with an allowed email whose [users] row exists returns that
    user and rewrites nothing but the [last_login] column of that one row:
    its id, email, name, is_admin and created_at, every other row of
    [users], the AUTOINCREMENT counter and the other two tables stay. *)
Theorem get_or_create_user_existing clk email name db row :
  wf_db db ->
  on_allow_list email db = true ->
  In row (rows (users db)) ->
  LOWER (users_email row) = LOWER email ->
  let touch r :=
    if users_id r =? users_id row
    then with_last_login (Some (CURRENT_TIMESTAMP clk)) r else r in
  let db' := file_after (get_or_create_user clk email name db) in
  outcome (get_or_create_user clk email name db)
  = Ok (Some (mk_User (Some (users_id row)) (users_email row)
                (users_name row) (py_bool (users_is_admin row))
                (users_created_at row)
                (Some (datetime_now_isoformat clk 0%nat))))
  /\ rows (users db') = map touch (rows (users db))
  /\ touch row
     = mk_users_row (users_id row) (users_email row) (users_name row)
         (users_is_admin row) (users_created_at row)
         (Some (CURRENT_TIMESTAMP clk))
  /\ (forall r, In r (rows (users db)) -> r <> row -> touch r = r)
  /\ sqlite_sequence (users db') = sqlite_sequence (users db)
  /\ allowed_emails db' = allowed_emails db
  /\ notes db' = notes db.
Proof.
  intros Hwf Ha Hin E touch db'. subst db'.
  rewrite get_or_create_user_eq, Ha.
  rewrite (users_row_for_unique db email row Hwf Hin E).
  unfold outcome, file_after. simpl.
  split; [reflexivity|]. split; [reflexivity|].
  split; [unfold touch; now rewrite Z.eqb_refl|].
  split; [|repeat split].
  intros r Hr Hne. unfold touch.
  destruct (users_id r =? users_id row) eqn:Eid; [|reflexivity].
  exfalso. apply Hne. apply Z.eqb_eq in Eid.
  exact (wf_table_rowid_key users_id (users db) r row (wf_users _ Hwf)
           Hr Hin Eid).
Qed.

Lemma get_or_create_user_existing_witness :
  let row := mk_users_row 1 "foo@bar.com" "Foo" 0 "2024-05-01 10:00:00" None in
  wf_db Sample.with_foo
  /\ on_allow_list "FOO@BAR.COM" Sample.with_foo = true
  /\ In row (rows (users Sample.with_foo))
  /\ LOWER (users_email row) = LOWER "FOO@BAR.COM"
  /\ outcome (get_or_create_user Sample.at_10h01 "FOO@BAR.COM" "F."
                Sample.with_foo)
     = Ok (Some (mk_User (Some 1) "foo@bar.com" "Foo" false
                   "2024-05-01 10:00:00" (Some "2024-05-01T12:01:00.000100"))).
Proof.
  intros row.
  assert (Hin : In row (rows (users Sample.with_foo))) by (left; reflexivity).
  split; [exact wf_db_with_foo|]. split; [reflexivity|].
  split; [exact Hin|]. split; [reflexivity|].
  exact (proj1 (get_or_create_user_existing Sample.at_10h01 "FOO@BAR.COM"
                  "F." Sample.with_foo row wf_db_with_foo eq_refl Hin
                  eq_refl)).
Defined.

(** C2, as the code has it. A first login with an allowed email returns a
    [User] with [is_admin = False] and [last_login] set to the current time,
    and appends a [users] row with [is_admin = 0] and [created_at] the
    current time, but the row's [last_login] is NULL: the INSERT names only
    [email] and [name].  Reading the user back shows the NULL. *)
Theorem get_or_create_user_new clk email name db :
  wf_db db ->
  on_allow_list email db = true ->
  users_row_for email db = None ->
  let rid := next_rowid users_id (users db) in
  let db' := file_after (get_or_create_user clk email name db) in
  outcome (get_or_create_user clk email name db)
  = Ok (Some (mk_User (Some rid) (lower email) name false
                (datetime_now_isoformat clk 0%nat)
                (Some (datetime_now_isoformat clk 1%nat))))
  /\ rows (users db')
     = rows (users db)
       ++ [mk_users_row rid (lower email) name 0 (CURRENT_TIMESTAMP clk) None]
  /\ outcome (get_user_by_email email db')
     = Ok (Some (mk_User (Some rid) (lower email) name false
                   (CURRENT_TIMESTAMP clk) None)).
Proof.
  intros Hwf Ha Hn rid db'. subst db'.
  rewrite get_user_by_email_eq, get_or_create_user_eq, Ha, Hn.
  rewrite (insert_users_no_conflict db email Hwf Ha Hn).
  unfold outcome, file_after, users_row_for. simpl.
  split; [reflexivity|]. split; [reflexivity|].
  unfold users_row_for in Hn. rewrite (find_app_none _ _ _ Hn). simpl.
  rewrite LOWER_lower, (allowed_email_lower db email Hwf Ha).
  now rewrite String.eqb_refl.
Qed.

Lemma get_or_create_user_new_witness :
  wf_db Sample.seeded
  /\ on_allow_list "Foo@Bar.com" Sample.seeded = true
  /\ users_row_for "Foo@Bar.com" Sample.seeded = None
  /\ outcome (get_or_create_user Sample.at_10h "Foo@Bar.com" "Foo"
                Sample.seeded)
     = Ok (Some (mk_User (Some 1) "foo@bar.com" "Foo" false
                   "2024-05-01T12:00:00.000100"
                   (Some "2024-05-01T12:00:00.000200")))
  /\ rows (users (file_after (get_or_create_user Sample.at_10h "Foo@Bar.com"
                                "Foo" Sample.seeded)))
     = [mk_users_row 1 "foo@bar.com" "Foo" 0 "2024-05-01 10:00:00" None].
Proof.
  split; [exact wf_db_seeded|]. split; [reflexivity|]. split; [reflexivity|].
  pose proof (get_or_create_user_new Sample.at_10h "Foo@Bar.com" "Foo"
                Sample.seeded wf_db_seeded eq_refl eq_refl) as H.
  split; [exact (proj1 H) | exact (proj1 (proj2 H))].
Defined.



(** Where SQLite's [LOWER] and Python's [str.lower] part ways the match is
    lost: [add_allowed_email] stores U+00C9 lower-cased, as U+00E9, the
    WHERE clause compares with [LOWER], which folds neither, and the login
    under the spelling that was added is denied. *)
Remark latin1_capital_is_not_folded_by_LOWER :
  let email := String (ascii_of_N 201) "@bar.com" in
  let db := file_after (add_allowed_email Sample.at_10h email "cli"
                          (_init_db None)) in
  map allowed_email (rows (allowed_emails db))
  = [String (ascii_of_N 233) "@bar.com"]
  /\ get_or_create_user Sample.at_10h01 email "E" db = (Ok None, db).
Proof. split; reflexivity. Qed.

(** ** Managing the allow-list *)

Lemma filter_key_once {R} (f : R -> string) l x :
  List.NoDup (map f l) -> In x l ->
  List.length (List.filter (fun r => String.eqb (f r) (f x)) l) = 1%nat.
Proof.
  induction l as [|y l IH]; simpl; [tauto|].
  intros Hn. inversion Hn as [|? ? Hy Hl]; subst.
  intros [->|Hx].
  - rewrite String.eqb_refl. simpl. f_equal.
    rewrite filter_drops_all; [reflexivity|].
    intros r Hr. apply String.eqb_neq. intros E. apply Hy.
    rewrite <- E. now apply in_map.
  - destruct (String.eqb (f y) (f x)) eqn:E.
    + apply String.eqb_eq in E. exfalso. apply Hy. rewrite E.
      now apply in_map.
    + now apply IH.
Qed.

Lemma allowed_rows_for_one db email a :
  wf_db db -> In a (rows (allowed_emails db)) ->
  allowed_email a = lower email ->
  allowed_rows_for email db = 1%nat.
Proof.
  intros Hwf Ha E. unfold allowed_rows_for.
  rewrite <- (filter_key_once allowed_email (rows (allowed_emails db)) a
                (wf_allowed_unique _ Hwf) Ha).
  f_equal. apply filter_ext_in. intros r Hr.
  pose proof (wf_allowed_lower _ Hwf) as Hl.
  rewrite List.Forall_forall in Hl. now rewrite (Hl r Hr), E.
Qed.

Lemma add_allowed_email_stores clk email added_by db :
  exists a,
    In a (rows (allowed_emails
                  (file_after (add_allowed_email clk email added_by db))))
    /\ allowed_email a = lower email.
Proof.
  rewrite add_allowed_email_eq. unfold file_after. simpl.
  destruct (existsb _ _) eqn:E; simpl.
  - apply existsb_exists in E as (a & Ha & E). exists a.
    split; [exact Ha | now apply String.eqb_eq].
  - eexists. split; [apply in_or_app; right; left; reflexivity|reflexivity].
Qed.

(** C6. Adding an email a second time, in whatever casing, raises nothing
    and leaves the rows of the allow-list as the first add left them, with
    exactly one row for that email; the other tables are not touched.
    Removing an email that no row matches raises nothing and leaves the file
    as it was. *)
Theorem allow_list_add_remove_idempotent :
  (forall clk1 clk2 email1 email2 by1 by2 db,
      wf_db db ->
      lower email1 = lower email2 ->
      let first := add_allowed_email clk1 email1 by1 db in
      let second := add_allowed_email clk2 email2 by2 (file_after first) in
      outcome first = Ok tt
      /\ outcome second = Ok tt
      /\ rows (allowed_emails (file_after second))
         = rows (allowed_emails (file_after first))
      /\ allowed_rows_for email1 (file_after first) = 1%nat
      /\ allowed_rows_for email1 (file_after second) = 1%nat
      /\ users (file_after second) = users db
      /\ notes (file_after second) = notes db)
  /\ (forall email db,
         on_allow_list email db = false ->
         remove_allowed_email email db = (Ok tt, db)).
Proof.
  split.
  - intros clk1 clk2 email1 email2 by1 by2 db Hwf E first second.
    pose proof (wf_db_add_allowed_email clk1 email1 by1 db Hwf) as Hwf1.
    pose proof (wf_db_add_allowed_email clk2 email2 by2 _ Hwf1) as Hwf2.
    destruct (add_allowed_email_stores clk1 email1 by1 db) as (a & Ha & Ea).
    fold first in Ha, Hwf1, Hwf2. fold second in Hwf2.
    assert (Hrows : rows (allowed_emails (file_after second))
                    = rows (allowed_emails (file_after first))).
    { subst second. rewrite (add_allowed_email_eq clk2).
      unfold file_after at 1. simpl.
      assert (Hex : existsb
                      (fun r => String.eqb (allowed_email r) (lower email2))
                      (rows (allowed_emails (file_after first))) = true).
      { apply existsb_exists. exists a. split; [exact Ha|].
        apply String.eqb_eq. now rewrite Ea. }
      unfold file_after in Hex |- *. now rewrite Hex. }
    split; [subst first; now rewrite add_allowed_email_eq|].
    split; [subst second; now rewrite add_allowed_email_eq|].
    split; [exact Hrows|].
    split; [exact (allowed_rows_for_one _ email1 a Hwf1 Ha Ea)|].
    split.
    + unfold allowed_rows_for. rewrite Hrows.
      exact (allowed_rows_for_one _ email1 a Hwf1 Ha Ea).
    + subst second first. rewrite !add_allowed_email_eq.
      unfold file_after. simpl.
      split; repeat (destruct (existsb _ _); simpl); reflexivity.
  - intros email db H. rewrite remove_allowed_email_eq. f_equal.
    rewrite on_allow_list_false in H.
    rewrite filter_keeps_all.
    + now rewrite mk_table_eta, set_allowed_emails_id.
    + intros a Ha. apply negb_true_iff, String.eqb_neq. now apply H.
Qed.

Lemma allow_list_add_remove_idempotent_witness :
  wf_db Sample.seeded
  /\ lower "Ann@Bar.com" = lower "ANN@bar.COM"
  /\ on_allow_list "bob@bar.com" Sample.seeded = false
  /\ allowed_rows_for "Ann@Bar.com"
       (file_after
          (add_allowed_email Sample.at_10h02 "ANN@bar.COM" "cli"
             (file_after
                (add_allowed_email Sample.at_10h01 "Ann@Bar.com"
                   "foo@bar.com" Sample.seeded)))) = 1%nat
  /\ remove_allowed_email "bob@bar.com" Sample.seeded
     = (Ok tt, Sample.seeded).
Proof.
  split; [exact wf_db_seeded|]. split; [reflexivity|]. split; [reflexivity|].
  split.
  - pose proof (proj1 allow_list_add_remove_idempotent Sample.at_10h01
                  Sample.at_10h02 "Ann@Bar.com" "ANN@bar.COM" "foo@bar.com"
                  "cli" Sample.seeded wf_db_seeded eq_refl) as H.
    exact (proj1 (proj2 (proj2 (proj2 (proj2 H))))).
  - exact (proj2 allow_list_add_remove_idempotent "bob@bar.com"
             Sample.seeded eq_refl).
Defined.

(** ** Listing notes *)

Section OrderByDesc.

Context {R : Type} (key : R -> string).

Lemma text_lt_irrefl s : text_lt s s = false.
Proof.
  unfold text_lt, String.ltb.
  destruct (String.compare s s) eqn:E; try reflexivity.
  apply String_as_OT.cmp_lt in E.
  apply String_as_OT.lt_not_eq in E. exfalso. apply E. reflexivity.
Qed.

Lemma text_lt_asym a b : text_lt a b = true -> text_lt b a = false.
Proof.
  unfold text_lt, String.ltb. rewrite (String.compare_antisym a b).
  now destruct (String.compare b a).
Qed.

Lemma text_lt_trans a b c :
  text_lt a b = true -> text_lt b c = true -> text_lt a c = true.
Proof.
  unfold text_lt, String.ltb. intros H1 H2.
  destruct (String.compare a b) eqn:E1; try discriminate.
  destruct (String.compare b c) eqn:E2; try discriminate.
  apply String_as_OT.cmp_lt in E1, E2.
  pose proof (String_as_OT.lt_trans _ _ _ E1 E2) as H.
  apply String_as_OT.cmp_lt in H. unfold String_as_OT.cmp in H.
  now rewrite H.
Qed.

Lemma text_lt_false a b : text_lt a b = false -> a = b \/ text_lt b a = true.
Proof.
  unfold text_lt, String.ltb. rewrite (String.compare_antisym b a).
  destruct (String.compare a b) eqn:E; try discriminate; intros _.
  - left. now apply String.compare_eq_iff.
  - now right.
Qed.

Lemma not_below_trans a b c :
  not_below key a b -> not_below key b c -> not_below key a c.
Proof.
  unfold not_below. intros H1 H2.
  destruct (text_lt (key a) (key c)) eqn:E; [|reflexivity]. exfalso.
  destruct (text_lt_false _ _ H1) as [E1|E1];
    destruct (text_lt_false _ _ H2) as [E2|E2].
  - rewrite E1, E2, text_lt_irrefl in E. discriminate.
  - rewrite E1 in E. apply text_lt_asym in E. congruence.
  - rewrite <- E2 in E. apply text_lt_asym in E. congruence.
  - pose proof (text_lt_trans _ _ _ E2 E1) as H.
    apply text_lt_asym in H. congruence.
Qed.

Lemma insert_desc_perm x l : Permutation (insert_desc key x l) (x :: l).
Proof.
  induction l as [|y l IH]; simpl; [reflexivity|].
  destruct (text_lt (key x) (key y)); [|reflexivity].
  rewrite IH. apply perm_swap.
Qed.

Lemma order_by_desc_perm l : Permutation (order_by_desc key l) l.
Proof.
  induction l as [|x l IH]; simpl; [reflexivity|].
  fold (order_by_desc key l). rewrite insert_desc_perm. now constructor.
Qed.

Lemma insert_desc_sorted x l :
  StronglySorted (not_below key) l ->
  StronglySorted (not_below key) (insert_desc key x l).
Proof.
  induction 1 as [|y l Hs IH Hy]; simpl; [repeat constructor|].
  destruct (text_lt (key x) (key y)) eqn:E.
  - constructor; [exact IH|].
    apply List.Forall_forall. intros z Hz.
    apply (Permutation_in _ (insert_desc_perm x l)) in Hz.
    destruct Hz as [<-|Hz].
    + now apply text_lt_asym.
    + rewrite List.Forall_forall in Hy. now apply Hy.
  - constructor; [now constructor|].
    constructor; [exact E|].
    eapply List.Forall_impl; [|exact Hy].
    intros z Hz. exact (not_below_trans _ _ _ E Hz).
Qed.

Lemma order_by_desc_sorted l :
  StronglySorted (not_below key) (order_by_desc key l).
Proof.
  induction l as [|x l IH]; simpl; [constructor|].
  now apply insert_desc_sorted.
Qed.

Lemma StronglySorted_suffix (le : R -> R -> Prop) p q :
  StronglySorted le (p ++ q) -> StronglySorted le q.
Proof.
  induction p as [|y p IH]; simpl; [tauto|].
  intros H. inversion H; subst. now apply IH.
Qed.

(** In a list ordered by [key] descending, a row with a smaller key than
    [b] stands after [b]. *)
Lemma sorted_desc_after p b q a :
  StronglySorted (not_below key) (p ++ b :: q) ->
  In a (p ++ b :: q) ->
  text_lt (key a) (key b) = true ->
  In a q.
Proof.
  induction p as [|y p IH]; simpl; intros Hs Ha Hlt.
  - destruct Ha as [->|Ha]; [|exact Ha].
    rewrite text_lt_irrefl in Hlt. discriminate.
  - inversion Hs as [|? ? Hs' Hy]; subst.
    destruct Ha as [->|Ha]; [|now apply IH].
    rewrite List.Forall_forall in Hy.
    assert (Hb : In b (p ++ b :: q)) by (apply in_or_app; right; now left).
    specialize (Hy b Hb). unfold not_below in Hy. congruence.
Qed.

Lemma sorted_desc_before3 l a b c :
  StronglySorted (not_below key) l -> In a l -> In b l -> In c l ->
  text_lt (key a) (key b) = true -> text_lt (key b) (key c) = true ->
  exists l0 l1 l2 l3, l = l0 ++ c :: l1 ++ b :: l2 ++ a :: l3.
Proof.
  intros Hs Ha Hb Hc Hab Hbc.
  apply in_split in Hc as (l0 & q & ->).
  pose proof (sorted_desc_after l0 c q b Hs Hb Hbc) as Hb'.
  pose proof (sorted_desc_after l0 c q a Hs Ha (text_lt_trans _ _ _ Hab Hbc))
    as Ha'.
  apply StronglySorted_suffix in Hs. inversion Hs as [|? ? Hq _]; subst.
  apply in_split in Hb' as (l1 & q2 & ->).
  pose proof (sorted_desc_after l1 b q2 a Hq Ha' Hab) as Ha''.
  apply in_split in Ha'' as (l2 & l3 & ->).
  now exists l0, l1, l2, l3.
Qed.

End OrderByDesc.

Lemma get_notes_sorted user_id db :
  exists l,
    outcome (get_notes user_id db) = Ok l
    /\ StronglySorted (not_below notes_created_at) l
    /\ Permutation l
         (List.filter (fun r => notes_user_id r =? user_id) (rows (notes db))).
Proof.
  rewrite get_notes_eq. eexists. split; [reflexivity|].
  split; [apply order_by_desc_sorted | apply order_by_desc_perm].
Qed.

(** C5, amended. Three notes created one after the other for one user, with
    [created_at] strictly increasing from one to the next, are listed by
    [get_notes] newest first: N3 before N2 before N1, and exactly so when
    the user had no note before. *)
Theorem get_notes_newest_first clk1 clk2 clk3 user_id c1 c2 c3 db :
  text_lt (CURRENT_TIMESTAMP clk1) (CURRENT_TIMESTAMP clk2) = true ->
  text_lt (CURRENT_TIMESTAMP clk2) (CURRENT_TIMESTAMP clk3) = true ->
  let first := add_note clk1 user_id c1 db in
  let second := add_note clk2 user_id c2 (file_after first) in
  let third := add_note clk3 user_id c3 (file_after second) in
  exists id1 id2 id3,
    outcome first = Ok id1
    /\ outcome second = Ok id2
    /\ outcome third = Ok id3
    /\ let N1 := mk_notes_row id1 user_id c1 (CURRENT_TIMESTAMP clk1) in
       let N2 := mk_notes_row id2 user_id c2 (CURRENT_TIMESTAMP clk2) in
       let N3 := mk_notes_row id3 user_id c3 (CURRENT_TIMESTAMP clk3) in
       (exists l0 l1 l2 l3,
           outcome (get_notes user_id (file_after third))
           = Ok (l0 ++ N3 :: l1 ++ N2 :: l2 ++ N1 :: l3))
       /\ ((forall n, In n (rows (notes db)) -> notes_user_id n <> user_id) ->
           outcome (get_notes user_id (file_after third)) = Ok [N3; N2; N1]).
Proof.
  intros H12 H23 first second third. subst third second first.
  rewrite get_notes_eq, !add_note_eq. unfold outcome, file_after. simpl.
  set (id1 := next_rowid notes_id (notes db)).
  set (t1 := mk_table _ id1).
  set (id2 := next_rowid notes_id t1).
  set (t2 := mk_table _ id2).
  set (id3 := next_rowid notes_id t2).
  exists id1, id2, id3. do 3 (split; [reflexivity|]).
  set (N1 := mk_notes_row id1 _ _ _). set (N2 := mk_notes_row id2 _ _ _).
  set (N3 := mk_notes_row id3 _ _ _).
  set (mine := fun r : notes_row => notes_user_id r =? user_id).
  assert (Hf : List.filter mine (((rows (notes db) ++ [N1]) ++ [N2]) ++ [N3])
               = List.filter mine (rows (notes db)) ++ [N1; N2; N3]).
  { rewrite !List.filter_app. simpl. unfold mine at 2 3 4. simpl.
    rewrite Z.eqb_refl. now rewrite <- !app_assoc. }
  rewrite Hf. split.
  - set (old := List.filter mine (rows (notes db))).
    assert (Hin : forall n,
              In n [N1; N2; N3] ->
              In n (order_by_desc notes_created_at (old ++ [N1; N2; N3]))).
    { intros n Hn.
      apply (Permutation_in _ (Permutation_sym (order_by_desc_perm _ _))).
      apply in_or_app. now right. }
    destruct (sorted_desc_before3 notes_created_at _ N1 N2 N3
                (order_by_desc_sorted _ _)
                (Hin N1 (or_introl eq_refl))
                (Hin N2 (or_intror (or_introl eq_refl)))
                (Hin N3 (or_intror (or_intror (or_introl eq_refl))))
                H12 H23) as (l0 & l1 & l2 & l3 & E).
    exists l0, l1, l2, l3. now rewrite E.
  - intros Hnone. rewrite (filter_drops_all mine).
    + simpl. rewrite H23. simpl.
      rewrite (text_lt_trans _ _ _ H12 H23), H12. reflexivity.
    + intros n Hn. unfold mine. apply Z.eqb_neq. now apply Hnone.
Qed.

Lemma get_notes_newest_first_witness :
  text_lt (CURRENT_TIMESTAMP Sample.at_10h)
    (CURRENT_TIMESTAMP Sample.at_10h01) = true
  /\ text_lt (CURRENT_TIMESTAMP Sample.at_10h01)
       (CURRENT_TIMESTAMP Sample.at_10h02) = true
  /\ exists id1 id2 id3,
       outcome (add_note Sample.at_10h 1 "one" Sample.with_foo) = Ok id1
       /\ outcome (add_note Sample.at_10h01 1 "two"
                     (file_after (add_note Sample.at_10h 1 "one"
                                    Sample.with_foo))) = Ok id2
       /\ outcome (add_note Sample.at_10h02 1 "three"
                     (file_after
                        (add_note Sample.at_10h01 1 "two"
                           (file_after (add_note Sample.at_10h 1 "one"
                                          Sample.with_foo))))) = Ok id3
       /\ let N1 := mk_notes_row id1 1 "one"
                      (CURRENT_TIMESTAMP Sample.at_10h) in
          let N2 := mk_notes_row id2 1 "two"
                      (CURRENT_TIMESTAMP Sample.at_10h01) in
          let N3 := mk_notes_row id3 1 "three"
                      (CURRENT_TIMESTAMP Sample.at_10h02) in
          (exists l0 l1 l2 l3,
              outcome (get_notes 1
                         (file_after
                            (add_note Sample.at_10h02 1 "three"
                               (file_after
                                  (add_note Sample.at_10h01 1 "two"
                                     (file_after
                                        (add_note Sample.at_10h 1 "one"
                                           Sample.with_foo)))))))
              = Ok (l0 ++ N3 :: l1 ++ N2 :: l2 ++ N1 :: l3))
          /\ ((forall n, In n (rows (notes Sample.with_foo))
                         -> notes_user_id n <> 1) ->
              outcome (get_notes 1
                         (file_after
                            (add_note Sample.at_10h02 1 "three"
                               (file_after
                                  (add_note Sample.at_10h01 1 "two"
                                     (file_after
                                        (add_note Sample.at_10h 1 "one"
                                           Sample.with_foo)))))))
              = Ok [N3; N2; N1]).
Proof.
  split; [reflexivity|]. split; [reflexivity|].
  exact (get_notes_newest_first Sample.at_10h Sample.at_10h01 Sample.at_10h02
           1 "one" "two" "three" Sample.with_foo eq_refl eq_refl).
Defined.

(** C5 as stated fails when the clock does not move between the calls:
    three notes created within one second carry the same [created_at];
    [get_notes] lists them oldest first, and that list is in descending
    order of [created_at] as much as the reverse one is. *)
Lemma get_notes_same_second :
  let db1 := file_after (add_note Sample.at_10h 1 "one" Sample.with_foo) in
  let db2 := file_after (add_note Sample.at_10h 1 "two" db1) in
  let db3 := file_after (add_note Sample.at_10h 1 "three" db2) in
  let N1 := mk_notes_row 1 1 "one" "2024-05-01 10:00:00" in
  let N2 := mk_notes_row 2 1 "two" "2024-05-01 10:00:00" in
  let N3 := mk_notes_row 3 1 "three" "2024-05-01 10:00:00" in
  outcome (add_note Sample.at_10h 1 "one" Sample.with_foo) = Ok 1
  /\ outcome (add_note Sample.at_10h 1 "two" db1) = Ok 2
  /\ outcome (add_note Sample.at_10h 1 "three" db2) = Ok 3
  /\ outcome (get_notes 1 db3) = Ok [N1; N2; N3]
  /\ outcome (get_notes 1 db3) <> Ok [N3; N2; N1]
  /\ StronglySorted (not_below notes_created_at) [N1; N2; N3].
Proof.
  repeat split; try reflexivity.
  - vm_compute. intros H. discriminate H.
  - repeat constructor.
Qed.

(** ** The session guards *)

Lemma require_auth_eq session db :
  require_auth session db =
  (Ok (if truthy (session_get session "user_email") then None
       else Some (mk_RedirectResponse "/login" 303)), db).
Proof. unfold require_auth. now destruct (truthy _). Qed.

Lemma require_admin_eq session db :
  require_admin session db =
  (Ok (if truthy (session_get session "is_admin") then None
       else Some (mk_RedirectResponse "/error?msg=Admin+access+required" 303)),
   db).
Proof. unfold require_admin. now destruct (truthy _). Qed.

Lemma logged_in_is_admin user session :
  session_get (logged_in user session) "is_admin"
  = PyBool (User_is_admin user).
Proof. unfold session_get, logged_in. now rewrite lookup_insert_eq. Qed.

Lemma get_auth_verified clk info session db :
  info_email_verified info = Some true ->
  get_auth clk info session db =
  let email := str_or (info_email info) "" in
  let name := str_or (info_name info) (split_first "@" email) in
  match get_or_create_user clk email name db with
  | (Ok (Some user), db') =>
      (Ok (mk_RedirectResponse "/" 303, logged_in user session), db')
  | (Ok None, db') =>
      (Ok (mk_RedirectResponse
             ("/error?msg=Access+denied.+Email+" ++ email
              ++ "+is+not+authorized.") 303, session), db')
  | (Raise e, db') => (Raise e, db')
  end.
Proof.
  intros Hv. unfold get_auth, and_then. rewrite Hv. simpl.
  destruct (get_or_create_user _ _ _ db) as [[[u|]|e] db']; reflexivity.
Qed.

Lemma get_or_create_user_allowed_emails clk email name db :
  allowed_emails (file_after (get_or_create_user clk email name db))
  = allowed_emails db.
Proof.
  rewrite get_or_create_user_eq. unfold file_after.
  destruct (negb _); [reflexivity|].
  destruct (users_row_for email db); [reflexivity|].
  now destruct (existsb _ _).
Qed.

Lemma on_allow_list_same_table email db db' :
  allowed_emails db' = allowed_emails db ->
  on_allow_list email db' = on_allow_list email db.
Proof. unfold on_allow_list. now intros ->. Qed.

(** After a login that was let in, the file holds the user's row, and the
    [is_admin] the caller got is the one of that row. *)
Lemma get_or_create_user_row clk email name db :
  wf_db db -> on_allow_list email db = true ->
  exists u row,
    outcome (get_or_create_user clk email name db) = Ok (Some u)
    /\ users_row_for email (file_after (get_or_create_user clk email name db))
       = Some row
    /\ User_is_admin u = py_bool (users_is_admin row)
    /\ (users_is_admin row = 0
        \/ exists old, In old (rows (users db))
                       /\ LOWER (users_email old) = LOWER email
                       /\ users_is_admin row = users_is_admin old).
Proof.
  intros Hwf Hon.
  pose proof (wf_db_get_or_create_user clk email name db Hwf) as Hwf'.
  revert Hwf'. rewrite get_or_create_user_eq, Hon.
  destruct (users_row_for email db) as [row|] eqn:F;
    unfold outcome, file_after; simpl; intros Hwf'.
  - apply users_row_for_some in F as [Hin Er].
    set (touch := fun r => if users_id r =? users_id row
                           then with_last_login
                                  (Some (CURRENT_TIMESTAMP clk)) r else r)
      in *.
    eexists. exists (touch row). split; [reflexivity|].
    assert (Et : touch row
                 = with_last_login (Some (CURRENT_TIMESTAMP clk)) row)
      by (unfold touch; now rewrite Z.eqb_refl).
    split; [|split].
    + apply (users_row_for_unique _ email (touch row) Hwf').
      * simpl. now apply in_map.
      * now rewrite Et.
    + now rewrite Et.
    + right. exists row. rewrite Et. now repeat split.
  - rewrite (insert_users_no_conflict db email Hwf Hon F) in *.
    simpl in *. eexists.
    exists (mk_users_row (next_rowid users_id (users db)) (lower email) name
              0 (CURRENT_TIMESTAMP clk) None).
    split; [reflexivity|].
    split; [|split; [reflexivity | left; reflexivity]].
    apply (users_row_for_unique _ email _ Hwf').
    + simpl. apply in_or_app. right. now left.
    + simpl. rewrite LOWER_lower. now apply (allowed_email_lower db).
Qed.

Lemma set_admin_row email is_admin db :
  users_row_for email (file_after (set_admin email is_admin db))
  = option_map (with_is_admin (sql_of_bool is_admin)) (users_row_for email db).
Proof.
  rewrite set_admin_eq. unfold file_after, users_row_for. simpl.
  induction (rows (users db)) as [|r l IH]; simpl; [reflexivity|].
  destruct (String.eqb (LOWER (users_email r)) (LOWER email)) eqn:E; simpl.
  - now rewrite E.
  - now rewrite E.
Qed.

(** C8. [require_auth] and [require_admin] answer from the session alone:
    whatever file they run against they return the same value and hand the
    file back untouched, so [set_admin] on the store cannot change the
    answer a session gets.  In particular, for a user who is not an admin
    when logging in: after [set_admin(email, True)] the store shows an
    admin, the session of that login is still refused by [require_admin],
    and the session of a new login is accepted. *)
Theorem guards_read_session_only :
  (forall session, exists r, forall db, require_auth session db = (Ok r, db))
  /\ (forall session,
         exists r, forall db, require_admin session db = (Ok r, db))
  /\ (forall session email is_admin db,
         outcome (require_admin session
                    (file_after (set_admin email is_admin db)))
         = outcome (require_admin session db))
  /\ (forall clk clk' info session0 db,
         let email := str_or (info_email info) "" in
         wf_db db ->
         info_email_verified info = Some true ->
         on_allow_list email db = true ->
         (forall r, In r (rows (users db)) ->
                    LOWER (users_email r) = LOWER email ->
                    users_is_admin r = 0) ->
         let login := get_auth clk info session0 db in
         let db2 := file_after (set_admin email true (file_after login)) in
         exists resp session1,
           outcome login = Ok (resp, session1)
           /\ (exists u, outcome (get_user_by_email email db2) = Ok (Some u)
                         /\ User_is_admin u = true)
           /\ (forall db',
                  outcome (require_admin session1 db')
                  = Ok (Some (mk_RedirectResponse
                                "/error?msg=Admin+access+required" 303)))
           /\ exists resp' session2,
                outcome (get_auth clk' info session1 db2)
                = Ok (resp', session2)
                /\ forall db', outcome (require_admin session2 db') = Ok None).
Proof.
  split; [|split; [|split]].
  - intros session. eexists. intros db. apply require_auth_eq.
  - intros session. eexists. intros db. apply require_admin_eq.
  - intros session email is_admin db. now rewrite !require_admin_eq.
  - intros clk clk' info session0 db email Hwf Hv Hon Hnot login db2.
    subst login db2.
    set (name := str_or (info_name info) (split_first "@" email)).
    destruct (get_or_create_user_row clk email name db Hwf Hon)
      as (u & row1 & Hout & Hrow1 & Hadm & Hold).
    pose proof (wf_db_get_or_create_user clk email name db Hwf) as Hwf1.
    pose proof (get_or_create_user_allowed_emails clk email name db) as Hal1.
    assert (Hu : User_is_admin u = false).
    { rewrite Hadm. destruct Hold as [->|(old & Hin & E & ->)];
        [reflexivity|]. now rewrite (Hnot old Hin E). }
    destruct (get_or_create_user clk email name db) as [res db1] eqn:G.
    unfold outcome, file_after in Hout, Hrow1, Hwf1, Hal1.
    simpl in Hout, Hrow1, Hwf1, Hal1. subst res.
    assert (Hlogin : get_auth clk info session0 db
                     = (Ok (mk_RedirectResponse "/" 303,
                            logged_in u session0), db1)).
    { rewrite (get_auth_verified clk info session0 db Hv). cbv zeta.
      change (str_or (info_email info) "") with email.
      change (str_or (info_name info) (split_first "@" email)) with name.
      now rewrite G. }
    assert (Hfile : file_after (get_auth clk info session0 db) = db1)
      by now rewrite Hlogin.
    rewrite Hfile, Hlogin. cbn [outcome fst].
    set (db2 := file_after (set_admin email true db1)).
    assert (Hrow2 : users_row_for email db2
                    = Some (with_is_admin 1 row1)).
    { subst db2. now rewrite set_admin_row, Hrow1. }
    assert (Hwf2 : wf_db db2) by (apply wf_db_set_admin, Hwf1).
    assert (Hon2 : on_allow_list email db2 = true).
    { rewrite <- Hon. subst db2.
      rewrite (on_allow_list_same_table email db1); [|reflexivity].
      now apply on_allow_list_same_table. }
    eexists. eexists. split; [reflexivity|].
    split; [|split].
    + rewrite get_user_by_email_eq, Hrow2. cbn [fst option_map].
      eexists. split; reflexivity.
    + intros db'. rewrite require_admin_eq, logged_in_is_admin, Hu.
      reflexivity.
    + rewrite (get_auth_verified clk' info _ db2 Hv). cbv zeta.
      change (str_or (info_email info) "") with email.
      change (str_or (info_name info) (split_first "@" email)) with name.
      rewrite get_or_create_user_eq, Hon2, Hrow2. cbn [negb fst].
      eexists. eexists. split; [reflexivity|].
      intros db'. rewrite require_admin_eq, logged_in_is_admin.
      reflexivity.
Qed.

Lemma guards_read_session_only_witness :
  let info := mk_UserInfo (Some "Foo@Bar.com") None (Some true) in
  let email := str_or (info_email info) "" in
  let login := get_auth Sample.at_10h info (∅ : Session) Sample.seeded in
  let db2 := file_after (set_admin email true (file_after login)) in
  wf_db Sample.seeded
  /\ info_email_verified info = Some true
  /\ on_allow_list email Sample.seeded = true
  /\ (forall r, In r (rows (users Sample.seeded)) ->
                LOWER (users_email r) = LOWER email ->
                users_is_admin r = 0)
  /\ exists resp session1,
       outcome login = Ok (resp, session1)
       /\ (exists u, outcome (get_user_by_email email db2) = Ok (Some u)
                     /\ User_is_admin u = true)
       /\ (forall db',
              outcome (require_admin session1 db')
              = Ok (Some (mk_RedirectResponse
                            "/error?msg=Admin+access+required" 303)))
       /\ exists resp' session2,
            outcome (get_auth Sample.at_10h01 info session1 db2)
            = Ok (resp', session2)
            /\ forall db', outcome (require_admin session2 db') = Ok None.
Proof.
  intros info email login db2.
  assert (Hnone : forall r, In r (rows (users Sample.seeded)) ->
                    LOWER (users_email r) = LOWER email ->
                    users_is_admin r = 0) by (intros r []).
  split; [exact wf_db_seeded|]. split; [reflexivity|].
  split; [reflexivity|]. split; [exact Hnone|].
  exact (proj2 (proj2 (proj2 guards_read_session_only)) Sample.at_10h
           Sample.at_10h01 info ∅ Sample.seeded wf_db_seeded eq_refl eq_refl
           Hnone).
Defined.

(** * Further properties of the store *)

(** ** The allow-list *)

Lemma get_allowed_emails_eq db :
  get_allowed_emails db
  = (Ok (map allowed_email (rows (allowed_emails db))), db).
Proof. reflexivity. Qed.

Lemma existsb_filter_same {R} (p q : R -> bool) l :
  (forall x, In x l -> p x = true -> q x = true) ->
  existsb p (List.filter q l) = existsb p l.
Proof.
  induction l as [|x l IH]; intros H; simpl; [reflexivity|].
  assert (IH' : existsb p (List.filter q l) = existsb p l).
  { apply IH. intros y Hy. apply H. now right. }
  destruct (q x) eqn:Q; simpl; [now rewrite IH'|].
  destruct (p x) eqn:P; [|exact IH'].
  rewrite (H x (or_introl eq_refl) P) in Q. discriminate.
Qed.

(** X1. What [add_allowed_email] stores is found again: the lower-cased
    email is listed by [get_allowed_emails] and allowed by
    [is_email_allowed]; when the email holds no capital outside ASCII, the
    email itself is allowed, and [remove_allowed_email] of it takes the
    entry off the list again. *)
Theorem allow_list_round_trip clk email added_by db :
  let added := file_after (add_allowed_email clk email added_by db) in
  let removed := file_after (remove_allowed_email email added) in
  outcome (is_email_allowed (lower email) added) = Ok true
  /\ (exists l, outcome (get_allowed_emails added) = Ok l
                /\ In (lower email) l)
  /\ outcome (is_email_allowed email removed) = Ok false
  /\ (lower email = LOWER email ->
      outcome (is_email_allowed email added) = Ok true
      /\ exists l, outcome (get_allowed_emails removed) = Ok l
                   /\ ~ In (lower email) l).
Proof.
  intros added removed.
  destruct (add_allowed_email_stores clk email added_by db)
    as (a & Ha & Ea). fold added in Ha.
  split; [|split; [|split]].
  - rewrite is_email_allowed_eq. unfold outcome. simpl. f_equal.
    apply on_allow_list_true. exists a. split; [exact Ha|]. now rewrite Ea.
  - rewrite get_allowed_emails_eq. eexists. split; [reflexivity|].
    rewrite <- Ea. now apply in_map.
  - subst removed. rewrite remove_allowed_email_eq, is_email_allowed_eq.
    unfold outcome, file_after. simpl. f_equal.
    apply on_allow_list_false. simpl. intros r Hr.
    apply filter_In in Hr as [_ Hr].
    now apply negb_true_iff, String.eqb_neq in Hr.
  - intros Hl. split.
    + rewrite is_email_allowed_eq. unfold outcome. simpl. f_equal.
      apply on_allow_list_true. exists a. split; [exact Ha|].
      now rewrite Ea, LOWER_lower.
    + subst removed. rewrite remove_allowed_email_eq, get_allowed_emails_eq.
      unfold outcome, file_after. simpl. eexists. split; [reflexivity|].
      intros Hin. apply in_map_iff in Hin as (r & Er & Hr).
      apply filter_In in Hr as [_ Hr].
      apply negb_true_iff, String.eqb_neq in Hr. apply Hr.
      now rewrite Er, LOWER_lower.
Qed.

Lemma allow_list_round_trip_witness :
  lower "Ann@Bar.com" = LOWER "Ann@Bar.com"
  /\ outcome (is_email_allowed "Ann@Bar.com"
                (file_after (add_allowed_email Sample.at_10h "Ann@Bar.com"
                               "cli" Sample.seeded))) = Ok true
  /\ exists l,
       outcome (get_allowed_emails
                  (file_after
                     (remove_allowed_email "Ann@Bar.com"
                        (file_after (add_allowed_email Sample.at_10h
                                       "Ann@Bar.com" "cli" Sample.seeded)))))
       = Ok l
       /\ ~ In (lower "Ann@Bar.com") l.
Proof.
  split; [reflexivity|].
  exact (proj2 (proj2 (proj2 (allow_list_round_trip Sample.at_10h
                                "Ann@Bar.com" "cli" Sample.seeded)))
           eq_refl).
Defined.

(** X2. Adding or removing one email does not change whether another email
    is allowed: an email that the stored entry does not match keeps its
    answer from [is_email_allowed]. *)
Theorem allow_list_changes_are_local clk email added_by other db :
  (LOWER other <> lower email ->
   outcome (is_email_allowed other
              (file_after (add_allowed_email clk email added_by db)))
   = outcome (is_email_allowed other db))
  /\ (LOWER other <> LOWER email ->
      outcome (is_email_allowed other
                 (file_after (remove_allowed_email email db)))
      = outcome (is_email_allowed other db)).
Proof.
  split; intros Hne; rewrite !is_email_allowed_eq; unfold outcome;
    cbn [fst]; f_equal; unfold on_allow_list.
  - rewrite add_allowed_email_eq. unfold file_after. simpl.
    destruct (existsb _ (rows (allowed_emails db))); simpl; [reflexivity|].
    rewrite existsb_app. simpl. rewrite LOWER_lower.
    assert (E : String.eqb (lower email) (LOWER other) = false).
    { apply String.eqb_neq. congruence. }
    rewrite E. now rewrite !orb_false_r.
  - rewrite remove_allowed_email_eq. unfold file_after. simpl.
    apply existsb_filter_same. intros r _ Hr.
    apply String.eqb_eq in Hr. apply negb_true_iff, String.eqb_neq.
    congruence.
Qed.

Lemma allow_list_changes_are_local_witness :
  LOWER "foo@bar.com" <> lower "Ann@Bar.com"
  /\ outcome (is_email_allowed "foo@bar.com"
                (file_after (add_allowed_email Sample.at_10h "Ann@Bar.com"
                               "cli" Sample.seeded)))
     = outcome (is_email_allowed "foo@bar.com" Sample.seeded).
Proof.
  assert (H : LOWER "foo@bar.com" <> lower "Ann@Bar.com")
    by (vm_compute; discriminate).
  split; [exact H|].
  exact (proj1 (allow_list_changes_are_local Sample.at_10h "Ann@Bar.com"
                  "cli" "foo@bar.com" Sample.seeded) H).
Defined.

(** X3. However the methods are called, no two [users] rows and no two
    [allowed_emails] rows hold emails that are equal up to case, and
    [get_allowed_emails] returns no email twice. *)
Theorem emails_unique_ignoring_case cs :
  (forall r1 r2,
      In r1 (rows (users (run_calls cs))) ->
      In r2 (rows (users (run_calls cs))) ->
      LOWER (users_email r1) = LOWER (users_email r2) -> r1 = r2)
  /\ (forall a1 a2,
         In a1 (rows (allowed_emails (run_calls cs))) ->
         In a2 (rows (allowed_emails (run_calls cs))) ->
         LOWER (allowed_email a1) = LOWER (allowed_email a2) -> a1 = a2)
  /\ exists l, get_allowed_emails (run_calls cs) = (Ok l, run_calls cs)
               /\ List.NoDup l.
Proof.
  pose proof (wf_db_run_calls cs) as Hwf.
  assert (Hfix : forall s, lower s = s -> LOWER s = s).
  { intros s Hs. rewrite <- Hs. apply LOWER_lower. }
  split; [|split].
  - intros r1 r2 H1 H2 E.
    pose proof (wf_users_lower _ Hwf) as Hl.
    rewrite List.Forall_forall in Hl.
    apply (NoDup_map_key users_email (rows (users (run_calls cs))));
      [exact (wf_users_unique _ Hwf) | exact H1 | exact H2 |].
    now rewrite <- (Hfix _ (Hl r1 H1)), <- (Hfix _ (Hl r2 H2)).
  - intros a1 a2 H1 H2 E.
    pose proof (wf_allowed_lower _ Hwf) as Hl.
    rewrite List.Forall_forall in Hl.
    apply (NoDup_map_key allowed_email
             (rows (allowed_emails (run_calls cs))));
      [exact (wf_allowed_unique _ Hwf) | exact H1 | exact H2 |].
    now rewrite <- (Hfix _ (Hl a1 H1)), <- (Hfix _ (Hl a2 H2)).
  - rewrite get_allowed_emails_eq. eexists. split; [reflexivity|].
    exact (wf_allowed_unique _ Hwf).
Qed.

(** ** The user registry *)

Lemma users_row_for_variant email email' db :
  LOWER email' = LOWER email ->
  users_row_for email' db = users_row_for email db.
Proof. unfold users_row_for. now intros ->. Qed.

(** X4. A user that [get_or_create_user] has just returned is found by
    [get_user_by_email] under any casing of the email, with the same id,
    email, name and admin flag, and the lookup changes nothing. *)
Theorem login_then_get_user_by_email clk email email' name db :
  wf_db db ->
  on_allow_list email db = true ->
  LOWER email' = LOWER email ->
  let db' := file_after (get_or_create_user clk email name db) in
  exists u u',
    outcome (get_or_create_user clk email name db) = Ok (Some u)
    /\ get_user_by_email email' db' = (Ok (Some u'), db')
    /\ User_id u' = User_id u
    /\ User_email u' = User_email u
    /\ User_name u' = User_name u
    /\ User_is_admin u' = User_is_admin u.
Proof.
  intros Hwf Hon E db'.
  pose proof (wf_db_get_or_create_user clk email name db Hwf) as Hwf'.
  fold db' in Hwf'.
  assert (Hfind : forall row,
            In row (rows (users db')) ->
            LOWER (users_email row) = LOWER email ->
            get_user_by_email email' db' = (Ok (Some (User_of_row row)), db')).
  { intros row Hin Er. rewrite get_user_by_email_eq.
    rewrite (users_row_for_variant email email' db' E).
    now rewrite (users_row_for_unique db' email row Hwf' Hin Er). }
  revert Hfind. subst db'. clear Hwf'.
  rewrite get_or_create_user_eq, Hon.
  destruct (users_row_for email db) as [row|] eqn:F;
    unfold outcome, file_after; cbn [negb fst snd]; intros Hfind.
  - apply users_row_for_some in F as [Hin Er].
    eexists. eexists. split; [reflexivity|]. split.
    + apply (Hfind (with_last_login (Some (CURRENT_TIMESTAMP clk)) row)).
      * simpl.
        apply in_map_iff. exists row. split; [|exact Hin].
        now rewrite Z.eqb_refl.
      * exact Er.
    + repeat split.
  - rewrite (insert_users_no_conflict db email Hwf Hon F) in *.
    eexists. eexists. split; [reflexivity|]. split.
    + apply Hfind.
      * simpl. apply in_or_app. right. left. reflexivity.
      * simpl. rewrite LOWER_lower. now apply (allowed_email_lower db).
    + repeat split.
Qed.

Lemma login_then_get_user_by_email_witness :
  wf_db Sample.seeded
  /\ on_allow_list "Foo@Bar.com" Sample.seeded = true
  /\ LOWER "FOO@BAR.COM" = LOWER "Foo@Bar.com"
  /\ exists u u',
       outcome (get_or_create_user Sample.at_10h "Foo@Bar.com" "Foo"
                  Sample.seeded) = Ok (Some u)
       /\ get_user_by_email "FOO@BAR.COM" Sample.with_foo
          = (Ok (Some u'), Sample.with_foo)
       /\ User_id u' = User_id u
       /\ User_email u' = User_email u
       /\ User_name u' = User_name u
       /\ User_is_admin u' = User_is_admin u.
Proof.
  split; [exact wf_db_seeded|]. split; [reflexivity|]. split; [reflexivity|].
  exact (login_then_get_user_by_email Sample.at_10h "Foo@Bar.com"
           "FOO@BAR.COM" "Foo" Sample.seeded wf_db_seeded eq_refl eq_refl).
Defined.

Lemma StronglySorted_map_key {R S} (f : R -> S) (key : R -> string)
  (key' : S -> string) l :
  (forall r, key' (f r) = key r) ->
  StronglySorted (not_below key) l ->
  StronglySorted (not_below key') (map f l).
Proof.
  intros Hk. induction 1 as [|x l Hs IH Hx]; simpl; constructor.
  - exact IH.
  - apply List.Forall_map. eapply List.Forall_impl; [|exact Hx].
    intros y Hy. unfold not_below in *. now rewrite !Hk.
Qed.

(** X5. [get_all_users] changes nothing and returns every row of [users]
    exactly once, as a [User], the later [created_at] first. *)
Theorem get_all_users_lists_every_user db :
  exists l,
    get_all_users db = (Ok l, db)
    /\ Permutation l (map User_of_row (rows (users db)))
    /\ StronglySorted (not_below User_created_at) l.
Proof.
  eexists. split; [reflexivity|]. split.
  - apply Permutation_map, order_by_desc_perm.
  - apply (StronglySorted_map_key User_of_row users_created_at);
      [reflexivity | apply order_by_desc_sorted].
Qed.

Lemma Forall2_map_self {R} (P : R -> R -> Prop) (f : R -> R) l :
  (forall r, In r l -> P r (f r)) -> Forall2 P l (map f l).
Proof.
  induction l as [|x l IH]; intros H; simpl; constructor.
  - apply H. now left.
  - apply IH. intros r Hr. apply H. now right.
Qed.

(** X6. [set_admin] raises nothing and rewrites only the [is_admin] column,
    and only in rows whose email matches, case ignored: all other columns,
    all other rows, the order of the rows and the other tables stay.  With
    no matching row the file is left exactly as it was. *)
Theorem set_admin_changes_only_is_admin email is_admin db :
  let db' := file_after (set_admin email is_admin db) in
  outcome (set_admin email is_admin db) = Ok tt
  /\ allowed_emails db' = allowed_emails db
  /\ notes db' = notes db
  /\ sqlite_sequence (users db') = sqlite_sequence (users db)
  /\ Forall2
       (fun r r' =>
          users_id r' = users_id r
          /\ users_email r' = users_email r
          /\ users_name r' = users_name r
          /\ users_created_at r' = users_created_at r
          /\ users_last_login r' = users_last_login r
          /\ (LOWER (users_email r) = LOWER email ->
              users_is_admin r' = sql_of_bool is_admin)
          /\ (LOWER (users_email r) <> LOWER email -> r' = r))
       (rows (users db)) (rows (users db'))
  /\ (users_row_for email db = None -> db' = db).
Proof.
  intros db'. subst db'. rewrite set_admin_eq.
  unfold outcome, file_after. cbn [fst snd].
  do 4 (split; [reflexivity|]). split.
  - simpl. apply Forall2_map_self. intros r _.
    destruct (String.eqb (LOWER (users_email r)) (LOWER email)) eqn:E.
    + apply String.eqb_eq in E. simpl. repeat split. intros Hne.
      contradiction.
    + apply String.eqb_neq in E. repeat split. intros Hm. contradiction.
  - intros Hn. unfold users_row_for in Hn. rewrite find_none_forall in Hn.
    replace (map _ (rows (users db))) with (rows (users db)).
    + now rewrite mk_table_eta, set_users_id.
    + rewrite <- (map_id (rows (users db))) at 1. apply map_ext_in.
      intros r Hr. now rewrite (Hn r Hr).
Qed.

Lemma set_admin_changes_only_is_admin_witness :
  users_row_for "nobody@bar.com" Sample.with_foo = None
  /\ file_after (set_admin "nobody@bar.com" true Sample.with_foo)
     = Sample.with_foo.
Proof.
  split; [reflexivity|].
  exact (proj2 (proj2 (proj2 (proj2 (proj2
           (set_admin_changes_only_is_admin "nobody@bar.com" true
              Sample.with_foo))))) eq_refl).
Defined.

(** X7. After [set_admin(email, flag)] a lookup of that email, in any
    casing, returns the user there was before with [is_admin] equal to
    [flag], and [None] when there was none: the call creates no user. *)
Theorem set_admin_then_get_user_by_email email email' is_admin db :
  LOWER email' = LOWER email ->
  outcome (get_user_by_email email'
             (file_after (set_admin email is_admin db)))
  = Ok (match users_row_for email db with
        | Some row =>
            Some (mk_User (Some (users_id row)) (users_email row)
                    (users_name row) is_admin (users_created_at row)
                    (users_last_login row))
        | None => None
        end).
Proof.
  intros E. rewrite get_user_by_email_eq.
  rewrite (users_row_for_variant email email' _ E), set_admin_row.
  unfold outcome. cbn [fst]. f_equal.
  destruct (users_row_for email db) as [row|]; [|reflexivity].
  simpl. unfold User_of_row. simpl. now destruct is_admin.
Qed.

Lemma set_admin_then_get_user_by_email_witness :
  LOWER "FOO@bar.com" = LOWER "Foo@Bar.com"
  /\ outcome (get_user_by_email "FOO@bar.com"
                (file_after (set_admin "Foo@Bar.com" true Sample.with_foo)))
     = Ok (Some (mk_User (Some 1) "foo@bar.com" "Foo" true
                   "2024-05-01 10:00:00" None)).
Proof.
  split; [reflexivity|].
  exact (set_admin_then_get_user_by_email "Foo@Bar.com" "FOO@bar.com" true
           Sample.with_foo eq_refl).
Defined.

(** X8. Of two [set_admin] calls for the same email, in whatever casing,
    only the second counts: the file is the one the second call alone would
    have left.  A repeated call changes nothing more. *)
Theorem set_admin_last_call_wins email1 email2 flag1 flag2 db :
  LOWER email1 = LOWER email2 ->
  file_after (set_admin email2 flag2
                (file_after (set_admin email1 flag1 db)))
  = file_after (set_admin email2 flag2 db).
Proof.
  intros E. rewrite !set_admin_eq. unfold file_after. cbn [snd].
  unfold set_users. simpl. rewrite map_map. do 2 f_equal.
  apply map_ext. intros r. rewrite E.
  destruct (String.eqb (LOWER (users_email r)) (LOWER email2)) eqn:Er;
    simpl; now rewrite Er.
Qed.

Lemma set_admin_last_call_wins_witness :
  LOWER "FOO@bar.com" = LOWER "Foo@Bar.com"
  /\ file_after (set_admin "Foo@Bar.com" false
                   (file_after (set_admin "FOO@bar.com" true
                                  Sample.with_foo)))
     = file_after (set_admin "Foo@Bar.com" false Sample.with_foo).
Proof.
  split; [reflexivity|].
  exact (set_admin_last_call_wins "FOO@bar.com" "Foo@Bar.com" true false
           Sample.with_foo eq_refl).
Defined.

Lemma users_row_kept_by_call c db r :
  In r (rows (users db)) ->
  exists r',
    In r' (rows (users (run_call db c)))
    /\ users_id r' = users_id r
    /\ users_email r' = users_email r
    /\ users_name r' = users_name r
    /\ users_created_at r' = users_created_at r.
Proof.
  intros Hr.
  assert (Hsame : rows (users (run_call db c)) = rows (users db) ->
                  exists r', In r' (rows (users (run_call db c)))
                             /\ users_id r' = users_id r
                             /\ users_email r' = users_email r
                             /\ users_name r' = users_name r
                             /\ users_created_at r' = users_created_at r).
  { intros E. exists r. rewrite E. now repeat split. }
  assert (Hmap : forall f : users_row -> users_row,
             (forall x, users_id (f x) = users_id x
                        /\ users_email (f x) = users_email x
                        /\ users_name (f x) = users_name x
                        /\ users_created_at (f x) = users_created_at x) ->
             rows (users (run_call db c)) = map f (rows (users db)) ->
             exists r', In r' (rows (users (run_call db c)))
                        /\ users_id r' = users_id r
                        /\ users_email r' = users_email r
                        /\ users_name r' = users_name r
                        /\ users_created_at r' = users_created_at r).
  { intros f Hf E. exists (f r). rewrite E. split; [now apply in_map|].
    apply Hf. }
  destruct c as [clk e b|e|clk e n|e b|clk u content|nid u];
    cbn [run_call] in *.
  - apply Hsame. rewrite add_allowed_email_eq. unfold file_after. simpl.
    now destruct (existsb _ _).
  - apply Hsame. reflexivity.
  - revert Hsame Hmap. rewrite get_or_create_user_eq. unfold file_after.
    destruct (negb _); [intros Hsame _; now apply Hsame|].
    destruct (users_row_for e db) as [row|].
    + intros _ Hmap.
      apply (Hmap (fun x => if users_id x =? users_id row
                            then with_last_login
                                   (Some (CURRENT_TIMESTAMP clk)) x
                            else x)); [|reflexivity].
      intros x. destruct (users_id x =? users_id row); repeat split.
    + destruct (existsb _ _); intros Hsame _; [now apply Hsame|].
      exists r. simpl. split; [apply in_or_app; now left | now repeat split].
  - apply (Hmap (fun x => if String.eqb (LOWER (users_email x)) (LOWER e)
                          then with_is_admin (sql_of_bool b) x else x));
      [|reflexivity].
    intros x. destruct (String.eqb _ _); repeat split.
  - apply Hsame. reflexivity.
  - apply Hsame. rewrite delete_note_eq. reflexivity.
Qed.

(** X9. No call deletes a user or rewrites a user's id, email, name or
    [created_at]: a [users] row that is in the file is still there, with
    these four columns as they were, after any sequence of calls. *)
Theorem users_rows_are_never_deleted cs db r :
  In r (rows (users db)) ->
  exists r',
    In r' (rows (users (run_calls_from db cs)))
    /\ users_id r' = users_id r
    /\ users_email r' = users_email r
    /\ users_name r' = users_name r
    /\ users_created_at r' = users_created_at r.
Proof.
  unfold run_calls_from. revert db r.
  induction cs as [|c cs IH]; intros db r Hr; simpl.
  - exists r. now repeat split.
  - destruct (users_row_kept_by_call c db r Hr)
      as (r1 & H1 & Hid & Hem & Hna & Hcr).
    destruct (IH _ r1 H1) as (r2 & H2 & Hid2 & Hem2 & Hna2 & Hcr2).
    exists r2. split; [exact H2|]. repeat split; congruence.
Qed.

Lemma users_rows_are_never_deleted_witness :
  let row := mk_users_row 1 "foo@bar.com" "Foo" 0 "2024-05-01 10:00:00" None in
  In row (rows (users Sample.with_foo))
  /\ exists r',
       In r' (rows (users
                      (run_calls_from Sample.with_foo
                         [Call_remove_allowed_email "foo@bar.com";
                          Call_set_admin "foo@bar.com" true;
                          Call_get_or_create_user Sample.at_10h01
                            "foo@bar.com" "Other"])))
       /\ users_id r' = users_id row
       /\ users_email r' = users_email row
       /\ users_name r' = users_name row
       /\ users_created_at r' = users_created_at row.
Proof.
  intros row.
  assert (H : In row (rows (users Sample.with_foo))) by (left; reflexivity).
  split; [exact H|].
  exact (users_rows_are_never_deleted _ Sample.with_foo row H).
Defined.

(** ** Notes *)

(** X10. Notes are never edited, and they leave the table in one way only:
    after any one call a note is still there, unchanged, unless the call is
    [delete_note] with that note's id and owner; and a note that is there
    after the call was there before, unless the call is the [add_note] that
    made it. *)
Theorem notes_change_only_by_add_and_owner_delete c db :
  (forall n,
      In n (rows (notes db)) ->
      In n (rows (notes (run_call db c)))
      \/ c = Call_delete_note (notes_id n) (notes_user_id n))
  /\ (forall n,
         In n (rows (notes (run_call db c))) ->
         In n (rows (notes db))
         \/ exists clk,
              c = Call_add_note clk (notes_user_id n) (notes_content n)
              /\ notes_created_at n = CURRENT_TIMESTAMP clk).
Proof.
  assert (Hgoc : forall clk e n,
             notes (file_after (get_or_create_user clk e n db)) = notes db).
  { intros clk e n. rewrite get_or_create_user_eq. unfold file_after.
    destruct (negb _); [reflexivity|].
    destruct (users_row_for e db); [reflexivity|].
    now destruct (existsb _ _). }
  assert (Hadd : forall clk e b,
             notes (file_after (add_allowed_email clk e b db)) = notes db).
  { intros clk e b. rewrite add_allowed_email_eq. unfold file_after. simpl.
    now destruct (existsb _ _). }
  destruct c as [clk e b|e|clk e nm|e b|clk u content|nid u];
    cbn [run_call].
  - rewrite Hadd. split; intros n Hn; now left.
  - split; intros n Hn; now left.
  - rewrite Hgoc. split; intros n Hn; now left.
  - split; intros n Hn; now left.
  - rewrite add_note_eq. unfold file_after. simpl. split; intros n Hn.
    + left. apply in_or_app. now left.
    + apply in_app_or in Hn as [Hn|[<-|[]]]; [now left|].
      right. exists clk. split; reflexivity.
  - rewrite delete_note_eq. unfold file_after. simpl. split; intros n Hn.
    + destruct ((notes_id n =? nid) && (notes_user_id n =? u)) eqn:E.
      * right. apply andb_true_iff in E as [E1 E2].
        apply Z.eqb_eq in E1, E2. now subst.
      * left. apply filter_In. split; [exact Hn|]. now rewrite E.
    + left. now apply filter_In in Hn as [Hn _].
Qed.

Lemma notes_sequence_grows c db :
  sqlite_sequence (notes db) <= sqlite_sequence (notes (run_call db c)).
Proof.
  destruct c as [clk e b|e|clk e nm|e b|clk u content|nid u];
    cbn [run_call].
  - rewrite add_allowed_email_eq. unfold file_after. simpl.
    destruct (existsb _ _); simpl; lia.
  - simpl. lia.
  - rewrite get_or_create_user_eq. unfold file_after.
    destruct (negb _); [simpl; lia|].
    destruct (users_row_for e db); [simpl; lia|].
    destruct (existsb _ _); simpl; lia.
  - simpl. lia.
  - rewrite add_note_eq. unfold file_after. simpl.
    pose proof (next_rowid_above_sequence notes_id (notes db)). lia.
  - rewrite delete_note_eq. unfold file_after. simpl. lia.
Qed.

(** X11. Note ids are never used again: whatever calls follow, deleting the
    note among them, a note that [add_note] then makes gets an id above the
    id of every note the file once held. *)
Theorem note_ids_are_never_reused cs clk user_id content db n :
  wf_db db ->
  In n (rows (notes db)) ->
  exists note_id,
    outcome (add_note clk user_id content (run_calls_from db cs))
    = Ok note_id
    /\ notes_id n < note_id.
Proof.
  intros Hwf Hn. rewrite add_note_eq. unfold outcome. cbn [fst].
  eexists. split; [reflexivity|].
  assert (Hseq : notes_id n <= sqlite_sequence (notes db)).
  { pose proof (wf_rowid_drawn _ _ (wf_notes _ Hwf)) as Hd.
    rewrite List.Forall_forall in Hd. now apply Hd. }
  assert (Hgrow : sqlite_sequence (notes db)
                  <= sqlite_sequence (notes (run_calls_from db cs))).
  { clear. unfold run_calls_from. revert db.
    induction cs as [|c cs IH]; intros db; simpl; [lia|].
    pose proof (notes_sequence_grows c db). specialize (IH (run_call db c)).
    lia. }
  pose proof (next_rowid_above_sequence notes_id
                (notes (run_calls_from db cs))).
  lia.
Qed.

Lemma note_ids_are_never_reused_witness :
  let db := file_after (add_note Sample.at_10h 1 "one" Sample.with_foo) in
  let n := mk_notes_row 1 1 "one" "2024-05-01 10:00:00" in
  wf_db db
  /\ In n (rows (notes db))
  /\ exists note_id,
       outcome (add_note Sample.at_10h01 1 "two"
                  (run_calls_from db [Call_delete_note 1 1])) = Ok note_id
       /\ notes_id n < note_id.
Proof.
  intros db n.
  assert (Hwf : wf_db db) by (apply wf_db_add_note, wf_db_with_foo).
  assert (Hn : In n (rows (notes db))) by (left; reflexivity).
  split; [exact Hwf|]. split; [exact Hn|].
  exact (note_ids_are_never_reused [Call_delete_note 1 1] Sample.at_10h01 1
           "two" db n Hwf Hn).
Defined.

Lemma filter_filter_other {R} (p q : R -> bool) l :
  (forall x, In x l -> p x = true -> q x = true) ->
  List.filter p (List.filter q l) = List.filter p l.
Proof.
  induction l as [|x l IH]; intros H; simpl; [reflexivity|].
  assert (IH' : List.filter p (List.filter q l) = List.filter p l).
  { apply IH. intros y Hy. apply H. now right. }
  destruct (q x) eqn:Q; simpl; [now rewrite IH'|].
  destruct (p x) eqn:P; [|exact IH'].
  rewrite (H x (or_introl eq_refl) P) in Q. discriminate.
Qed.

(** X12. [get_notes] is per user: it changes nothing and returns exactly
    the notes whose [user_id] is the one asked for, and what it returns for
    one user is not changed by another user's [add_note] or by another
    user's [delete_note], whatever note id that one names. *)
Theorem get_notes_is_per_user user_id other clk content note_id db :
  (exists l,
      get_notes user_id db = (Ok l, db)
      /\ forall n, In n l
                   <-> In n (rows (notes db)) /\ notes_user_id n = user_id)
  /\ (other <> user_id ->
      outcome (get_notes user_id
                 (file_after (add_note clk other content db)))
      = outcome (get_notes user_id db)
      /\ outcome (get_notes user_id
                    (file_after (delete_note note_id other db)))
         = outcome (get_notes user_id db)).
Proof.
  split.
  - rewrite get_notes_eq. eexists. split; [reflexivity|]. intros n.
    split.
    + intros Hn.
      apply (Permutation_in _ (order_by_desc_perm _ _)) in Hn.
      apply filter_In in Hn as [Hn E]. apply Z.eqb_eq in E. now split.
    + intros [Hn E].
      apply (Permutation_in _ (Permutation_sym (order_by_desc_perm _ _))).
      apply filter_In. split; [exact Hn|]. now apply Z.eqb_eq.
  - intros Hne. rewrite !get_notes_eq, add_note_eq, delete_note_eq.
    unfold outcome, file_after. cbn [fst snd]. split; do 2 f_equal; simpl.
    + rewrite List.filter_app. simpl.
      assert (E : (other =? user_id) = false) by now apply Z.eqb_neq.
      rewrite E. apply app_nil_r.
    + apply filter_filter_other. intros n _ E. apply Z.eqb_eq in E.
      apply negb_true_iff, andb_false_iff. right. apply Z.eqb_neq.
      congruence.
Qed.

Lemma get_notes_is_per_user_witness :
  2 <> 1
  /\ outcome (get_notes 1
                (file_after (delete_note 1 2
                               (file_after (add_note Sample.at_10h 1 "one"
                                              Sample.with_foo)))))
     = outcome (get_notes 1
                  (file_after (add_note Sample.at_10h 1 "one"
                                 Sample.with_foo))).
Proof.
  assert (H : 2 <> 1) by lia.
  split; [exact H|].
  exact (proj2 (proj2 (get_notes_is_per_user 1 2 Sample.at_10h "x" 1
                         (file_after (add_note Sample.at_10h 1 "one"
                                        Sample.with_foo))) H)).
Defined.

Section OrderByDescStable.

Context {R : Type} (key : R -> string).

Lemma insert_desc_first x l :
  (forall z, In z l -> not_below key x z) -> insert_desc key x l = x :: l.
Proof.
  destruct l as [|y l]; intros H; simpl; [reflexivity|].
  now rewrite (H y (or_introl eq_refl)).
Qed.

Lemma insert_desc_around y x l1 l2 :
  StronglySorted (not_below key) (l1 ++ x :: l2) ->
  exists m1 m2,
    insert_desc key y (l1 ++ x :: l2) = m1 ++ x :: m2
    /\ insert_desc key y (l1 ++ l2) = m1 ++ m2.
Proof.
  induction l1 as [|a l1 IH]; simpl; intros Hs.
  - inversion Hs as [|? ? _ Hx]; subst. rewrite List.Forall_forall in Hx.
    destruct (text_lt (key y) (key x)) eqn:E.
    + now exists [], (insert_desc key y l2).
    + exists [y], l2. split; [reflexivity|].
      apply insert_desc_first. intros z Hz.
      exact (not_below_trans key y x z E (Hx z Hz)).
  - inversion Hs as [|? ? Hs' _]; subst.
    destruct (text_lt (key y) (key a)) eqn:E.
    + destruct (IH Hs') as (m1 & m2 & E1 & E2).
      exists (a :: m1), m2. simpl. now rewrite E1, E2.
    + now exists (y :: a :: l1), l2.
Qed.

(** A row appended to the scan lands somewhere in the ordered result and
    leaves the other rows as they stood. *)
Lemma order_by_desc_snoc x l :
  exists l1 l2,
    order_by_desc key (l ++ [x]) = l1 ++ x :: l2
    /\ order_by_desc key l = l1 ++ l2.
Proof.
  induction l as [|y l IH]; simpl.
  - now exists [], [].
  - destruct IH as (l1 & l2 & E1 & E2).
    fold (order_by_desc key (l ++ [x])). fold (order_by_desc key l).
    rewrite E1, E2. apply insert_desc_around. rewrite <- E1.
    apply order_by_desc_sorted.
Qed.

Lemma insert_desc_filter_out (p : R -> bool) x l :
  p x = false ->
  List.filter p (insert_desc key x l) = List.filter p l.
Proof.
  intros Hx. induction l as [|y l IH]; simpl; [now rewrite Hx|].
  destruct (text_lt (key x) (key y)); simpl.
  - now rewrite IH.
  - now rewrite Hx.
Qed.

Lemma insert_desc_filter_in (p : R -> bool) x l :
  p x = true ->
  StronglySorted (not_below key) l ->
  List.filter p (insert_desc key x l)
  = insert_desc key x (List.filter p l).
Proof.
  intros Hx. induction 1 as [|y l Hs IH Hy]; simpl; [now rewrite Hx|].
  rewrite List.Forall_forall in Hy.
  destruct (text_lt (key x) (key y)) eqn:E; simpl.
  - rewrite IH. destruct (p y); simpl; [now rewrite E | reflexivity].
  - rewrite Hx. symmetry. apply insert_desc_first.
    intros z Hz. destruct (p y).
    + destruct Hz as [<-|Hz]; [exact E|].
      apply filter_In in Hz as [Hz _].
      exact (not_below_trans key x y z E (Hy z Hz)).
    + apply filter_In in Hz as [Hz _].
      exact (not_below_trans key x y z E (Hy z Hz)).
Qed.

(** Leaving rows out before ordering or after it gives the same result. *)
Lemma order_by_desc_filter (p : R -> bool) l :
  order_by_desc key (List.filter p l)
  = List.filter p (order_by_desc key l).
Proof.
  induction l as [|x l IH]; simpl; [reflexivity|].
  fold (order_by_desc key l).
  destruct (p x) eqn:Hx; simpl.
  - fold (order_by_desc key (List.filter p l)). rewrite IH.
    symmetry. apply insert_desc_filter_in; [exact Hx|].
    apply order_by_desc_sorted.
  - rewrite IH. symmetry. now apply insert_desc_filter_out.
Qed.

End OrderByDescStable.

(** X13. The note [add_note] makes shows up in the owner's [get_notes]: the
    list afterwards is the list before with the new note put in at one
    place, the other notes in the order they had. *)
Theorem add_note_then_get_notes clk user_id content db :
  exists note_id l1 l2,
    outcome (add_note clk user_id content db) = Ok note_id
    /\ outcome (get_notes user_id db) = Ok (l1 ++ l2)
    /\ outcome (get_notes user_id
                  (file_after (add_note clk user_id content db)))
       = Ok (l1 ++ mk_notes_row note_id user_id content
                     (CURRENT_TIMESTAMP clk) :: l2).
Proof.
  rewrite !get_notes_eq, add_note_eq. unfold outcome, file_after.
  cbn [fst snd]. simpl.
  set (note := mk_notes_row _ user_id content _).
  rewrite List.filter_app. simpl. rewrite Z.eqb_refl.
  destruct (order_by_desc_snoc notes_created_at note
              (List.filter (fun r => notes_user_id r =? user_id)
                 (rows (notes db)))) as (l1 & l2 & E1 & E2).
  exists (notes_id note), l1, l2. split; [reflexivity|].
  now rewrite E1, E2.
Qed.

(** X14. After [delete_note(note_id, user_id)] the owner's [get_notes] is
    the list it was before without the note of that id, the others in the
    order they had. *)
Theorem delete_note_then_get_notes note_id user_id db :
  exists before,
    outcome (get_notes user_id db) = Ok before
    /\ outcome (get_notes user_id
                  (file_after (delete_note note_id user_id db)))
       = Ok (List.filter (fun n => negb (notes_id n =? note_id)) before).
Proof.
  rewrite !get_notes_eq, delete_note_eq. unfold outcome, file_after.
  cbn [fst snd]. simpl. eexists. split; [reflexivity|]. f_equal.
  rewrite <- order_by_desc_filter. f_equal.
  induction (rows (notes db)) as [|r l IH]; simpl; [reflexivity|].
  destruct (notes_user_id r =? user_id) eqn:Eu; simpl.
  - rewrite andb_true_r. destruct (notes_id r =? note_id); simpl.
    + exact IH.
    + rewrite Eu. now rewrite IH.
  - rewrite andb_false_r. simpl. rewrite Eu. exact IH.
Qed.

(** * Further properties of the application *)

(** ** Logging in *)

(** X15. [get_or_create_user] raises only when the INSERT meets the UNIQUE
    constraint on [users.email]; the file is then left as it was, and the
    email is one that is on the allow-list and that Python lower-cases
    otherwise than SQLite.  In a file the methods have produced it never
    raises. *)
Theorem get_or_create_user_raises_only_on_unique clk email name db :
  (forall e,
      outcome (get_or_create_user clk email name db) = Raise e ->
      e = IntegrityError "UNIQUE constraint failed: users.email"
      /\ file_after (get_or_create_user clk email name db) = db
      /\ on_allow_list email db = true
      /\ lower email <> LOWER email)
  /\ (wf_db db ->
      exists r, outcome (get_or_create_user clk email name db) = Ok r).
Proof.
  split.
  - intros e. rewrite get_or_create_user_eq. unfold outcome, file_after.
    destruct (on_allow_list email db) eqn:Hon; cbn [negb fst snd];
      [|discriminate].
    destruct (users_row_for email db) as [row|] eqn:F; [discriminate|].
    destruct (existsb _ _) eqn:Ex; cbn [fst snd]; [|discriminate].
    intros H. inversion H; subst. repeat split.
    intros El. apply existsb_exists in Ex as (r & Hr & Er).
    apply String.eqb_eq in Er.
    unfold users_row_for in F. rewrite find_none_forall in F.
    specialize (F r Hr). apply String.eqb_neq in F. apply F.
    now rewrite Er, LOWER_lower.
  - intros Hwf. rewrite get_or_create_user_eq. unfold outcome.
    destruct (on_allow_list email db) eqn:Hon; cbn [negb fst];
      [|now eexists].
    destruct (users_row_for email db) as [row|] eqn:F; [now eexists|].
    rewrite (insert_users_no_conflict db email Hwf Hon F). now eexists.
Qed.

Lemma get_or_create_user_raises_only_on_unique_witness :
  outcome (get_or_create_user Sample.at_10h Fixture.E_acute "E"
             Fixture.edited_by_hand)
  = Raise (IntegrityError "UNIQUE constraint failed: users.email")
  /\ file_after (get_or_create_user Sample.at_10h Fixture.E_acute "E"
                   Fixture.edited_by_hand) = Fixture.edited_by_hand
  /\ wf_db Sample.seeded
  /\ exists r, outcome (get_or_create_user Sample.at_10h "Foo@Bar.com" "Foo"
                          Sample.seeded) = Ok r.
Proof.
  pose proof (proj1 (get_or_create_user_raises_only_on_unique Sample.at_10h
                       Fixture.E_acute "E" Fixture.edited_by_hand)
                _ eq_refl) as H.
  split; [reflexivity|]. split; [exact (proj1 (proj2 H))|].
  split; [exact wf_db_seeded|].
  exact (proj2 (get_or_create_user_raises_only_on_unique Sample.at_10h
                  "Foo@Bar.com" "Foo" Sample.seeded) wf_db_seeded).
Defined.

(** X16. [get_auth] lets a caller in, with a redirect to [/], exactly when
    the provider says the email is verified and the email is on the
    allow-list; in every other case it answers with a redirect elsewhere and
    leaves both the session and the file as they were.  An
    [email_verified] that is missing counts as false. *)
Theorem get_auth_lets_in_verified_and_allowed_only clk info session db :
  wf_db db ->
  let email := str_or (info_email info) "" in
  exists resp session',
    outcome (get_auth clk info session db) = Ok (resp, session')
    /\ status_code resp = 303
    /\ (url resp = "/"
        <-> info_email_verified info = Some true
            /\ on_allow_list email db = true)
    /\ (url resp <> "/" ->
        session' = session
        /\ file_after (get_auth clk info session db) = db).
Proof.
  intros Hwf email.
  destruct (info_email_verified info) as [[|]|] eqn:Hv.
  - rewrite (get_auth_verified clk info session db Hv). cbv zeta.
    fold email.
    set (name := str_or (info_name info) (split_first "@" email)).
    destruct (on_allow_list email db) eqn:Hon.
    + destruct (get_or_create_user_row clk email name db Hwf Hon)
        as (u & row & Hout & _).
      destruct (get_or_create_user clk email name db) as [res db1].
      unfold outcome in Hout. simpl in Hout. subst res.
      eexists. eexists. split; [reflexivity|]. split; [reflexivity|].
      split; [now split|]. intros Hne. now contradiction Hne.
    + rewrite (get_or_create_user_off_list clk email name db Hon).
      eexists. eexists. split; [reflexivity|]. split; [reflexivity|].
      split; [|now split].
      split; [intros H; discriminate H | intros [_ H]; discriminate H].
  - unfold get_auth. rewrite Hv. simpl.
    eexists. eexists. split; [reflexivity|]. split; [reflexivity|].
    split; [|now split].
    split; [intros H; discriminate H | intros [H _]; discriminate H].
  - unfold get_auth. rewrite Hv. simpl.
    eexists. eexists. split; [reflexivity|]. split; [reflexivity|].
    split; [|now split].
    split; [intros H; discriminate H | intros [H _]; discriminate H].
Qed.

Lemma get_auth_lets_in_verified_and_allowed_only_witness :
  wf_db Sample.seeded
  /\ exists resp session',
       outcome (get_auth Sample.at_10h Fixture.foo_info ∅ Sample.seeded)
       = Ok (resp, session')
       /\ status_code resp = 303
       /\ (url resp = "/"
           <-> info_email_verified Fixture.foo_info = Some true
               /\ on_allow_list (str_or (info_email Fixture.foo_info) "")
                    Sample.seeded = true)
       /\ (url resp <> "/" ->
           session' = ∅
           /\ file_after (get_auth Sample.at_10h Fixture.foo_info ∅
                            Sample.seeded) = Sample.seeded).
Proof.
  split; [exact wf_db_seeded|].
  exact (get_auth_lets_in_verified_and_allowed_only Sample.at_10h
           Fixture.foo_info ∅ Sample.seeded wf_db_seeded).
Defined.

(** After a login that was let in: the user's row in the file, and how the
    [User] handed back and the row before the call relate to it. *)
Lemma login_row clk email name db :
  wf_db db -> on_allow_list email db = true ->
  let db' := file_after (get_or_create_user clk email name db) in
  exists u row,
    outcome (get_or_create_user clk email name db) = Ok (Some u)
    /\ users_row_for email db' = Some row
    /\ users_email row = lower email
    /\ User_id u = Some (users_id row)
    /\ User_email u = lower email
    /\ User_name u = users_name row
    /\ User_is_admin u = py_bool (users_is_admin row)
    /\ match users_row_for email db with
       | Some old =>
           row = with_last_login (Some (CURRENT_TIMESTAMP clk)) old
       | None =>
           row = mk_users_row (next_rowid users_id (users db)) (lower email)
                   name 0 (CURRENT_TIMESTAMP clk) None
       end.
Proof.
  intros Hwf Hon db'.
  pose proof (wf_db_get_or_create_user clk email name db Hwf) as Hwf'.
  fold db' in Hwf'. revert Hwf'. subst db'.
  rewrite get_or_create_user_eq, Hon.
  destruct (users_row_for email db) as [old|] eqn:F;
    unfold outcome, file_after; cbn [negb fst snd]; intros Hwf'.
  - apply users_row_for_some in F as [Hin Er].
    pose proof (stored_email_is_lower db email old Hwf Hin Er) as Hold.
    eexists. exists (with_last_login (Some (CURRENT_TIMESTAMP clk)) old).
    split; [reflexivity|]. split; [|simpl; repeat split; exact Hold].
    apply (users_row_for_unique _ email _ Hwf'); [|exact Er].
    simpl. apply in_map_iff. exists old. split; [|exact Hin].
    now rewrite Z.eqb_refl.
  - rewrite (insert_users_no_conflict db email Hwf Hon F) in *.
    cbn [fst snd] in *. eexists.
    exists (mk_users_row (next_rowid users_id (users db)) (lower email)
              name 0 (CURRENT_TIMESTAMP clk) None).
    split; [reflexivity|]. split; [|repeat split].
    apply (users_row_for_unique _ email _ Hwf').
    + simpl. apply in_or_app. right. left. reflexivity.
    + simpl. rewrite LOWER_lower. now apply (allowed_email_lower db).
Qed.

Lemma lower_nonempty s : s <> "" -> lower s <> "".
Proof. destruct s; [congruence | discriminate]. Qed.

Lemma logged_in_lookup user session :
  logged_in user session !! "user_email" = Some (PyStr (User_email user))
  /\ logged_in user session !! "user_name" = Some (PyStr (User_name user))
  /\ logged_in user session !! "user_id" = Some (py_int_opt (User_id user))
  /\ logged_in user session !! "is_admin"
     = Some (PyBool (User_is_admin user))
  /\ forall key,
       key <> "user_email" -> key <> "user_name" -> key <> "user_id" ->
       key <> "is_admin" ->
       logged_in user session !! key = session !! key.
Proof.
  unfold logged_in. repeat split.
  - rewrite !lookup_insert_ne by discriminate. apply lookup_insert_eq.
  - rewrite !lookup_insert_ne by discriminate. apply lookup_insert_eq.
  - rewrite lookup_insert_ne by discriminate. apply lookup_insert_eq.
  - apply lookup_insert_eq.
  - intros key H1 H2 H3 H4. now rewrite !lookup_insert_ne by congruence.
Qed.

Lemma get_auth_let_in clk info session db u db1 :
  info_email_verified info = Some true ->
  get_or_create_user clk (str_or (info_email info) "")
    (str_or (info_name info)
       (split_first "@" (str_or (info_email info) ""))) db
  = (Ok (Some u), db1) ->
  get_auth clk info session db
  = (Ok (mk_RedirectResponse "/" 303, logged_in u session), db1).
Proof.
  intros Hv G. rewrite (get_auth_verified clk info session db Hv).
  cbv zeta. now rewrite G.
Qed.

(** X17. A login that is let in, with a non-empty email, opens the session:
    [get_auth] writes the lower-cased email, the name, the id and the admin
    flag of the user's row under the four keys and leaves every other key of
    the session alone; from then on [require_auth] passes and
    [get_current_user] finds that row. *)
Theorem get_auth_opens_the_session clk info session db :
  wf_db db ->
  info_email_verified info = Some true ->
  let email := str_or (info_email info) "" in
  on_allow_list email db = true ->
  email <> "" ->
  let db' := file_after (get_auth clk info session db) in
  exists resp session' row,
    outcome (get_auth clk info session db) = Ok (resp, session')
    /\ url resp = "/"
    /\ users_row_for email db' = Some row
    /\ session' !! "user_email" = Some (PyStr (lower email))
    /\ session' !! "user_name" = Some (PyStr (users_name row))
    /\ session' !! "user_id" = Some (PyInt (users_id row))
    /\ session' !! "is_admin" = Some (PyBool (py_bool (users_is_admin row)))
    /\ (forall key,
           key <> "user_email" -> key <> "user_name" ->
           key <> "user_id" -> key <> "is_admin" ->
           session' !! key = session !! key)
    /\ (forall db'', require_auth session' db'' = (Ok None, db''))
    /\ get_current_user session' db' = (Ok (Some (User_of_row row)), db').
Proof.
  intros Hwf Hv email Hon Hne db'.
  set (name := str_or (info_name info) (split_first "@" email)).
  destruct (login_row clk email name db Hwf Hon)
    as (u & row & Hout & Hrow & Hem & Hid & Hue & Hun & Hua & _).
  destruct (get_or_create_user clk email name db) as [res db1] eqn:G.
  unfold outcome, file_after in Hout, Hrow. cbn [fst snd] in Hout, Hrow.
  subst res.
  pose proof (get_auth_let_in clk info session db u db1 Hv G) as Hauth.
  subst db'. rewrite Hauth. unfold outcome, file_after. cbn [fst snd].
  destruct (logged_in_lookup u session) as (L1 & L2 & L3 & L4 & L5).
  assert (Hget : session_get (logged_in u session) "user_email"
                 = PyStr (lower email)).
  { unfold session_get. now rewrite L1, Hue. }
  assert (Htruthy : truthy (PyStr (lower email)) = true).
  { simpl. apply negb_true_iff, String.eqb_neq. now apply lower_nonempty. }
  eexists. eexists. exists row. split; [reflexivity|].
  split; [reflexivity|]. split; [exact Hrow|].
  split; [now rewrite L1, Hue|]. split; [now rewrite L2, Hun|].
  split; [now rewrite L3, Hid|]. split; [now rewrite L4, Hua|].
  split; [exact L5|]. split.
  - intros db''. rewrite require_auth_eq, Hget, Htruthy. reflexivity.
  - unfold get_current_user. rewrite Hget, Htruthy. cbn [sql_text].
    rewrite get_user_by_email_eq.
    rewrite (users_row_for_variant email (lower email) db1).
    + now rewrite Hrow.
    + rewrite LOWER_lower. now apply (allowed_email_lower db).
Qed.

Lemma get_auth_opens_the_session_witness :
  wf_db Sample.seeded
  /\ info_email_verified Fixture.foo_info = Some true
  /\ on_allow_list (str_or (info_email Fixture.foo_info) "") Sample.seeded
     = true
  /\ str_or (info_email Fixture.foo_info) "" <> ""
  /\ exists resp session' row,
       outcome (get_auth Sample.at_10h Fixture.foo_info ∅ Sample.seeded)
       = Ok (resp, session')
       /\ url resp = "/"
       /\ users_row_for (str_or (info_email Fixture.foo_info) "")
            (file_after (get_auth Sample.at_10h Fixture.foo_info ∅
                           Sample.seeded)) = Some row
       /\ session' !! "user_email"
          = Some (PyStr (lower (str_or (info_email Fixture.foo_info) ""))).
Proof.
  assert (Hne : str_or (info_email Fixture.foo_info) "" <> "")
    by discriminate.
  split; [exact wf_db_seeded|]. split; [reflexivity|].
  split; [reflexivity|]. split; [exact Hne|].
  destruct (get_auth_opens_the_session Sample.at_10h Fixture.foo_info ∅
              Sample.seeded wf_db_seeded eq_refl eq_refl Hne)
    as (resp & session' & row & H1 & H2 & H3 & H4 & _).
  exists resp, session', row. now repeat split.
Defined.

Lemma split_first_local_part sep s :
  has_char sep (split_first sep s) = false
  /\ (exists rest, s = split_first sep s +:+ rest)
  /\ (has_char sep s = false -> split_first sep s = s).
Proof.
  induction s as [|c s (IH1 & (rest & IH2) & IH3)]; simpl.
  - split; [reflexivity|]. split; [now exists ""|reflexivity].
  - destruct (Ascii.eqb c sep) eqn:E; simpl.
    + split; [reflexivity|]. split; [now exists (String c s)|discriminate].
    + rewrite E. split; [exact IH1|]. split.
      * exists rest. rewrite IH2 at 1. reflexivity.
      * intros H. f_equal. now apply IH3.
Qed.

(** X18. When the provider gives no name, or an empty one, a first login
    stores as the user's name the part of the email before its first [@]:
    a text without [@] that the email starts with, the whole email when
    that holds no [@]. *)
Theorem get_auth_name_falls_back_to_local_part clk info session db :
  wf_db db ->
  info_email_verified info = Some true ->
  info_name info = None \/ info_name info = Some "" ->
  let email := str_or (info_email info) "" in
  on_allow_list email db = true ->
  users_row_for email db = None ->
  let db' := file_after (get_auth clk info session db) in
  let local := split_first "@" email in
  exists row,
    users_row_for email db' = Some row
    /\ users_name row = local
    /\ has_char "@" local = false
    /\ (exists rest, email = local +:+ rest)
    /\ (has_char "@" email = false -> local = email).
Proof.
  intros Hwf Hv Hname email Hon Hnew db' local.
  assert (Hn : str_or (info_name info) (split_first "@" email) = local).
  { destruct Hname as [-> | ->]; reflexivity. }
  destruct (login_row clk email local db Hwf Hon)
    as (u & row & Hout & Hrow & _ & _ & _ & _ & _ & Hold).
  rewrite Hnew in Hold.
  destruct (get_or_create_user clk email local db) as [res db1] eqn:G.
  unfold outcome, file_after in Hout, Hrow. cbn [fst snd] in Hout, Hrow.
  subst res.
  assert (Hauth : get_auth clk info session db
                  = (Ok (mk_RedirectResponse "/" 303, logged_in u session),
                     db1)).
  { apply get_auth_let_in; [exact Hv|]. fold email. now rewrite Hn. }
  subst db'. rewrite Hauth. unfold file_after. cbn [snd].
  exists row. split; [exact Hrow|]. split; [now rewrite Hold|].
  apply split_first_local_part.
Qed.

Lemma get_auth_name_falls_back_to_local_part_witness :
  wf_db Sample.seeded
  /\ info_email_verified Fixture.foo_info = Some true
  /\ (info_name Fixture.foo_info = None
      \/ info_name Fixture.foo_info = Some "")
  /\ on_allow_list (str_or (info_email Fixture.foo_info) "") Sample.seeded
     = true
  /\ users_row_for (str_or (info_email Fixture.foo_info) "") Sample.seeded
     = None
  /\ exists row,
       users_row_for (str_or (info_email Fixture.foo_info) "")
         (file_after (get_auth Sample.at_10h Fixture.foo_info ∅
                        Sample.seeded)) = Some row
       /\ users_name row = "Foo".
Proof.
  split; [exact wf_db_seeded|]. split; [reflexivity|].
  split; [left; reflexivity|]. split; [reflexivity|].
  split; [reflexivity|].
  destruct (get_auth_name_falls_back_to_local_part Sample.at_10h
              Fixture.foo_info ∅ Sample.seeded wf_db_seeded eq_refl
              (or_introl eq_refl) eq_refl eq_refl)
    as (row & H1 & H2 & _).
  exists row. split; [exact H1 | exact H2].
Defined.

(** ** The routes *)

Lemma remove_email_eq session email db :
  Routes.remove_email session email db =
  if truthy (session_get session "user_email")
  then if truthy (session_get session "is_admin")
       then (Return (Body ""), file_after (remove_allowed_email email db))
       else (Return (Redirect (mk_RedirectResponse
                                 "/error?msg=Admin+access+required" 303)),
             db)
  else (Return (Redirect (mk_RedirectResponse "/login" 303)), db).
Proof.
  unfold Routes.remove_email, then_, lift.
  rewrite require_auth_eq.
  destruct (truthy (session_get session "user_email")); [|reflexivity].
  rewrite require_admin_eq.
  destruct (truthy (session_get session "is_admin")); reflexivity.
Qed.

(** X19. The route [remove_email] decides from the session alone.  Without
    a user in the session or without its admin flag it answers with a
    redirect and leaves the file as it was; with both it removes the email
    and answers with an empty body.  So a session opened while the user was
    an admin goes on removing allow-list entries after
    [set_admin(email, False)] has taken the flag away in the store. *)
Theorem remove_email_decides_from_the_session :
  (forall session email db,
      truthy (session_get session "user_email")
      && truthy (session_get session "is_admin") = false ->
      exists redirect,
        Routes.remove_email session email db
        = (Return (Redirect redirect), db))
  /\ (forall session email db,
         truthy (session_get session "user_email")
         && truthy (session_get session "is_admin") = true ->
         Routes.remove_email session email db
         = (Return (Body ""), file_after (remove_allowed_email email db)))
  /\ (forall clk info session0 victim db old,
         wf_db db ->
         info_email_verified info = Some true ->
         let email := str_or (info_email info) "" in
         on_allow_list email db = true ->
         email <> "" ->
         users_row_for email db = Some old ->
         users_is_admin old <> 0 ->
         let login := get_auth clk info session0 db in
         let db2 := file_after (set_admin email false (file_after login)) in
         exists resp session1,
           outcome login = Ok (resp, session1)
           /\ (exists u, outcome (get_user_by_email email db2) = Ok (Some u)
                         /\ User_is_admin u = false)
           /\ Routes.remove_email session1 victim db2
              = (Return (Body ""),
                 file_after (remove_allowed_email victim db2))).
Proof.
  split; [|split].
  - intros session email db H. rewrite remove_email_eq.
    destruct (truthy (session_get session "user_email"));
      [|eexists; reflexivity].
    destruct (truthy (session_get session "is_admin"));
      [discriminate | eexists; reflexivity].
  - intros session email db H. rewrite remove_email_eq.
    apply andb_true_iff in H as [-> ->]. reflexivity.
  - intros clk info session0 victim db old Hwf Hv email Hon Hne Hold Hadm
      login db2.
    set (name := str_or (info_name info) (split_first "@" email)).
    destruct (login_row clk email name db Hwf Hon)
      as (u & row & Hout & Hrow & _ & _ & Hue & _ & Hua & Hrel).
    rewrite Hold in Hrel.
    destruct (get_or_create_user clk email name db) as [res db1] eqn:G.
    unfold outcome, file_after in Hout, Hrow. cbn [fst snd] in Hout, Hrow.
    subst res.
    pose proof (get_auth_let_in clk info session0 db u db1 Hv G) as Hauth.
    subst db2 login. rewrite Hauth.
    change (file_after
              (Ok (mk_RedirectResponse "/" 303, logged_in u session0), db1))
      with db1.
    unfold outcome at 1. cbn [fst].
    assert (Hflag : User_is_admin u = true).
    { rewrite Hua, Hrel. simpl. apply negb_true_iff, Z.eqb_neq, Hadm. }
    destruct (logged_in_lookup u session0) as (L1 & _ & _ & L4 & _).
    eexists. eexists. split; [reflexivity|]. split.
    + rewrite get_user_by_email_eq, set_admin_row, Hrow.
      unfold outcome. cbn [fst option_map]. eexists.
      split; reflexivity.
    + rewrite remove_email_eq. unfold session_get. rewrite L1, L4, Hue, Hflag.
      assert (Ht : negb (String.eqb (lower email) "") = true).
      { apply negb_true_iff, String.eqb_neq. now apply lower_nonempty. }
      cbn [default id truthy]. now rewrite Ht.
Qed.

Lemma remove_email_decides_from_the_session_witness :
  let email := str_or (info_email Fixture.foo_info) "" in
  let old := mk_users_row 1 "foo@bar.com" "Foo" 1 "2024-05-01 10:00:00" None in
  let login := get_auth Sample.at_10h01 Fixture.foo_info ∅
                 Fixture.with_admin_foo in
  let db2 := file_after (set_admin email false (file_after login)) in
  wf_db Fixture.with_admin_foo
  /\ users_row_for email Fixture.with_admin_foo = Some old
  /\ users_is_admin old <> 0
  /\ exists resp session1,
       outcome login = Ok (resp, session1)
       /\ (exists u, outcome (get_user_by_email email db2) = Ok (Some u)
                     /\ User_is_admin u = false)
       /\ Routes.remove_email session1 "foo@bar.com" db2
          = (Return (Body ""),
             file_after (remove_allowed_email "foo@bar.com" db2)).
Proof.
  intros email old login db2.
  assert (Hwf : wf_db Fixture.with_admin_foo)
    by (apply wf_db_set_admin, wf_db_with_foo).
  assert (Hne : email <> "") by discriminate.
  assert (Hadm : users_is_admin old <> 0) by discriminate.
  split; [exact Hwf|]. split; [reflexivity|]. split; [exact Hadm|].
  exact (proj2 (proj2 remove_email_decides_from_the_session) Sample.at_10h01
           Fixture.foo_info ∅ "foo@bar.com" Fixture.with_admin_foo old Hwf
           eq_refl eq_refl Hne eq_refl Hadm).
Defined.



Lemma length_order_by_desc {R} (key : R -> string) l :
  List.length (order_by_desc key l) = List.length l.
Proof. apply Permutation_length, order_by_desc_perm. Qed.

(** X21. The route [stats] only asks whether the session holds an email.
    Without one it answers [{"error": "Unauthorized"}] with status 401;
    with one, whether or not a user goes with it, it answers with the
    number of rows of [users] and of [allowed_emails].  It never changes
    the file. *)
Theorem stats_counts_the_rows session db :
  Routes.stats session db
  = (Return
       (if truthy (session_get session "user_email")
        then Json (<["users" :=
                       PyInt (Z.of_nat (List.length (rows (users db))))]>
                     {["allowed_emails" :=
                         PyInt (Z.of_nat
                                  (List.length
                                     (rows (allowed_emails db))))]})
               None
        else Json {["error" := PyStr "Unauthorized"]} (Some 401)),
     db).
Proof.
  unfold Routes.stats.
  destruct (truthy (session_get session "user_email")); [|reflexivity].
  unfold then_, lift, respond, get_all_users, get_allowed_emails,
    _get_connection, bind, ret, select_users_ordered, select_allowed_emails.
  cbn [negb]. now rewrite !length_map, length_order_by_desc.
Qed.

(** ** The command line functions and the start of the application *)

(** X22. [make_admin] needs a user: for an email without a row in [users],
    case ignored, it prints the error line and leaves the file as it was;
    for an email with one it prints that the privileges were granted, and
    afterwards [get_user_by_email] returns that user as an admin, the
    allow-list and the notes being untouched. *)
Theorem make_admin_needs_a_user email file :
  let db := Database file in
  match users_row_for email db with
  | None =>
      Cli.make_admin email file
      = ((["Error: User " +:+ email +:+ " not found. They must log in first."],
          Ok tt), db)
  | Some row =>
      exists db',
        Cli.make_admin email file
        = ((["Granted admin privileges to " +:+ email], Ok tt), db')
        /\ outcome (get_user_by_email email db')
           = Ok (Some (User_of_row (with_is_admin 1 row)))
        /\ allowed_emails db' = allowed_emails db
        /\ notes db' = notes db
  end.
Proof.
  intros db. unfold Cli.make_admin. fold db.
  rewrite get_user_by_email_eq.
  destruct (users_row_for email db) as [row|] eqn:Hrow; [|reflexivity].
  cbn [option_map].
  exists (file_after (set_admin email true db)).
  split; [reflexivity|]. split; [|split; reflexivity].
  now rewrite get_user_by_email_eq, set_admin_row, Hrow.
Qed.

(** X23. [init_admin] makes nobody an admin.  It puts the lower-cased
    email on the allow-list and leaves [users] and [notes] as they were, so
    for an email that has not logged in yet a [make_admin] right after it
    prints the error line and changes nothing. *)
Theorem init_admin_makes_no_admin clk email file :
  let run := Cli.init_admin clk email file in
  snd (fst run) = Ok tt
  /\ users (snd run) = users (Database file)
  /\ notes (snd run) = notes (Database file)
  /\ on_allow_list (lower email) (snd run) = true
  /\ (users_row_for email (Database file) = None ->
      Cli.make_admin email (Some (snd run))
      = ((["Error: User " +:+ email +:+ " not found. They must log in first."],
          Ok tt), snd run)).
Proof.
  intros run.
  assert (Hrun : snd run
                 = file_after (add_allowed_email clk email "cli"
                                 (Database file))).
  { subst run. unfold Cli.init_admin. now rewrite add_allowed_email_eq. }
  assert (Husers : users (snd run) = users (Database file)).
  { rewrite Hrun, add_allowed_email_eq. unfold file_after. simpl.
    now destruct (existsb _ _). }
  split; [|split; [exact Husers|split; [|split]]].
  - subst run. unfold Cli.init_admin. now rewrite add_allowed_email_eq.
  - rewrite Hrun, add_allowed_email_eq. unfold file_after. simpl.
    now destruct (existsb _ _).
  - rewrite Hrun.
    destruct (add_allowed_email_stores clk email "cli" (Database file))
      as (a & Ha & Ea).
    apply on_allow_list_true. exists a. split; [exact Ha | now rewrite Ea].
  - intros Hnone. unfold Cli.make_admin, Database, _init_db.
    rewrite get_user_by_email_eq. unfold users_row_for in *.
    now rewrite Husers, Hnone.
Qed.

Lemma init_admin_makes_no_admin_witness :
  users_row_for "Ann@Bar.com" (Database None) = None
  /\ Cli.make_admin "Ann@Bar.com"
       (Some (snd (Cli.init_admin Sample.at_10h "Ann@Bar.com" None)))
     = ((["Error: User Ann@Bar.com not found. They must log in first."],
         Ok tt),
        snd (Cli.init_admin Sample.at_10h "Ann@Bar.com" None)).
Proof.
  split; [reflexivity|].
  exact (proj2 (proj2 (proj2 (proj2
           (init_admin_makes_no_admin Sample.at_10h "Ann@Bar.com" None))))
           eq_refl).
Defined.



(** X25. Right after the first login of a user, [list_users] prints for
    that user the line with the name and the lower-cased email, without the
    admin badge, followed by [Last login: Never]; it raises nothing and
    leaves the file as it is. *)
Theorem list_users_says_never_after_first_login clk email name db :
  wf_db db ->
  on_allow_list email db = true ->
  users_row_for email db = None ->
  let db' := file_after (get_or_create_user clk email name db) in
  exists before after,
    Cli.list_users (Some db')
    = ((before
          ++ ["  - " +:+ name +:+ " (" +:+ lower email +:+ ")";
              "    Last login: Never"]
          ++ after, Ok tt), db').
Proof.
  intros Hwf Hon Hnone db'.
  destruct (login_row clk email name db Hwf Hon)
    as (u & row & _ & Hrow & _ & _ & _ & _ & _ & Hrel).
  fold db' in Hrow. rewrite Hnone in Hrel.
  apply users_row_for_some in Hrow as [Hin _].
  assert (Hu : In (User_of_row row)
                 (map User_of_row
                    (order_by_desc users_created_at (rows (users db'))))).
  { apply in_map.
    eapply Permutation_in; [|exact Hin].
    apply Permutation_sym, order_by_desc_perm. }
  apply in_split in Hu as (l1 & l2 & Hl).
  unfold Cli.list_users, Database, _init_db.
  rewrite get_allowed_emails_eq.
  unfold get_all_users, _get_connection, bind, ret, select_users_ordered.
  rewrite Hl, flat_map_app. cbn [flat_map]. clear Hl Hin. clearbody db'.
  assert (Hlines : Cli.user_lines (User_of_row row)
                   = ["  - " +:+ name +:+ " (" +:+ lower email +:+ ")";
                      "    Last login: Never"])
    by (subst row; reflexivity).
  rewrite Hlines.
  generalize (flat_map Cli.user_lines l1) (flat_map Cli.user_lines l2).
  intros lines1 lines2.
  match goal with
  | |- context [(?head ++ lines1 ++ _, _, _)] => exists (head ++ lines1)
  end.
  exists lines2. now rewrite <- (app_assoc _ lines1).
Qed.

Lemma list_users_says_never_after_first_login_witness :
  let db' := file_after (get_or_create_user Sample.at_10h01 "Foo@Bar.com"
                           "Foo" Sample.seeded) in
  wf_db Sample.seeded
  /\ exists before after,
       Cli.list_users (Some db')
       = ((before
             ++ ["  - " +:+ "Foo" +:+ " (" +:+ lower "Foo@Bar.com" +:+ ")";
                 "    Last login: Never"]
             ++ after, Ok tt), db').
Proof.
  intros db'. split; [exact wf_db_seeded|].
  exact (list_users_says_never_after_first_login Sample.at_10h01
           "Foo@Bar.com" "Foo" Sample.seeded wf_db_seeded eq_refl eq_refl).
Defined.

(** ** The element id of an allowed email *)

Lemma has_char_app c a b :
  has_char c (a +:+ b) = has_char c a || has_char c b.
Proof.
  induction a as [|d a IH]; simpl; [reflexivity|].
  now rewrite IH, orb_assoc.
Qed.

Lemma has_char_str_replace_other c old new s :
  c <> old -> has_char c new = false ->
  has_char c (str_replace old new s) = has_char c s.
Proof.
  intros Hc Hnew. induction s as [|d s IH]; simpl; [reflexivity|].
  destruct (Ascii.eqb_spec d old) as [->|Hd].
  - rewrite has_char_app, Hnew, IH.
    now rewrite (proj2 (Ascii.eqb_neq old c)) by congruence.
  - simpl. now rewrite IH.
Qed.

Lemma has_char_str_replace_old old new s :
  has_char old new = false -> has_char old (str_replace old new s) = false.
Proof.
  intros Hnew. induction s as [|d s IH]; simpl; [reflexivity|].
  destruct (Ascii.eqb_spec d old) as [->|Hd].
  - now rewrite has_char_app, Hnew, IH.
  - simpl. rewrite IH. now rewrite (proj2 (Ascii.eqb_neq d old)).
Qed.

Lemma str_replace_absent old new s :
  has_char old s = false -> str_replace old new s = s.
Proof.
  induction s as [|d s IH]; simpl; [reflexivity|].
  intros H. apply orb_false_iff in H as [Hd Hs].
  now rewrite Hd, IH.
Qed.

(** X26. The element id built from an allowed email holds neither [@] nor
    a dot, and for an email without them it is [email-] followed by the
    email.  It does not tell emails apart: an email with an [@] shares its
    id with the different text in which every [@] is spelled [-at-]. *)
Theorem email_element_id_replaces_at_and_dot email :
  has_char "@" (email_element_id email) = false
  /\ has_char "." (email_element_id email) = false
  /\ (has_char "@" email = false -> has_char "." email = false ->
      email_element_id email = "email-" +:+ email)
  /\ (has_char "@" email = true ->
      exists other,
        other <> email /\ email_element_id other = email_element_id email).
Proof.
  unfold email_element_id. repeat split.
  - rewrite has_char_app, has_char_str_replace_other;
      [|discriminate|reflexivity].
    now rewrite has_char_str_replace_old.
  - rewrite has_char_app. now rewrite has_char_str_replace_old.
  - intros Hat Hdot. now rewrite (str_replace_absent "@"), str_replace_absent.
  - intros Hat. exists (str_replace "@" "-at-" email). split.
    + intros E. rewrite <- E in Hat.
      now rewrite has_char_str_replace_old in Hat.
    + rewrite (str_replace_absent "@" "-at-" (str_replace _ _ _));
        [reflexivity|].
      now apply has_char_str_replace_old.
Qed.

Lemma email_element_id_replaces_at_and_dot_witness :
  has_char "@" "a@b.c" = true
  /\ email_element_id "a@b.c" = "email-a-at-b-dot-c"
  /\ exists other,
       other <> "a@b.c" /\ email_element_id other = email_element_id "a@b.c".
Proof.
  split; [reflexivity|]. split; [reflexivity|].
  exact (proj2 (proj2 (proj2
           (email_element_id_replaces_at_and_dot "a@b.c"))) eq_refl).
Defined.
